(** * Client Categorisation Matrix (src/main.py): a shallow embedding

    The Streamlit script loads a client table (embedded demo CSV, uploaded
    CSV or CSV behind a URL), normalises the revenue-share column, checks the
    six required columns, draws the quadrant chart and prints summary figures.

    Modelling choices, all local to this file:
    - Python [float] values are [pyfloat]: finite values are exact rationals
      (binary64 rounding is not modelled), plus NaN and the two infinities.
    - A pandas cell is a [value]; a [DataFrame] is a header and a list of rows,
      a [Series] the list of cells of one column.
    - Library routines whose code is not part of the script ([float(s)],
      [str(x)] on a float, [pd.read_csv], [requests.get]) are the fields of the
      class [PyLib]; [DecimalLib] is an executable instance for plain decimal
      literals and comma-separated text.
    - DataFrames live in a store addressed by references, Streamlit calls
      append to the rendered page, exceptions are results: the monad [M]. *)

From Stdlib Require Import ZArith Zdivisibility QArith Qabs String Ascii List Lia Lqa.
From stdpp Require Import base gmap strings list pretty sorting.

Local Open Scope string_scope.
Local Open Scope Z_scope.

(** ** Python floats and cell values *)

Inductive pyfloat :=
| FNum (q : Q)
| FNaN
| FInf (negative : bool).

Inductive value :=
| VInt (z : Z)
| VFloat (f : pyfloat)
| VStr (s : string).

Inductive exn :=
| KeyError (msg : string)
| ValueError (msg : string)
| TypeError (msg : string)
| OtherError (msg : string).

Inductive result (A : Type) :=
| Ok (a : A)
| Raise (e : exn).
Arguments Ok {A} a.
Arguments Raise {A} e.

(** [str(e)] for an exception. *)
Definition exn_message (e : exn) : string :=
  match e with
  | KeyError m | ValueError m | TypeError m | OtherError m => m
  end.

Definition result_bind {A B} (r : result A) (k : A -> result B) : result B :=
  match r with
  | Ok a => k a
  | Raise e => Raise e
  end.

#[global] Instance Q_eq_dec : EqDecision Q.
Proof. solve_decision. Defined.
#[global] Instance pyfloat_eq_dec : EqDecision pyfloat.
Proof. solve_decision. Defined.
#[global] Instance value_eq_dec : EqDecision value.
Proof. solve_decision. Defined.

(** A column of cells. *)
Abbreviation Series := (list value).

Definition NaN : value := VFloat FNaN.

Definition isna (v : value) : bool :=
  match v with
  | VFloat FNaN => true
  | _ => false
  end.

(** [Series.dropna()], which [sum], [mean] and [value_counts] apply first. *)
Definition dropna (s : Series) : Series := filter (fun v => isna v = false) s.

Definition fadd (a b : pyfloat) : pyfloat :=
  match a, b with
  | FNaN, _ | _, FNaN => FNaN
  | FNum p, FNum q => FNum (Qred (p + q))
  | FInf s, FNum _ | FNum _, FInf s => FInf s
  | FInf s, FInf t => if Bool.eqb s t then FInf s else FNaN
  end.

(** Division of a float by a positive count. *)
Definition fdiv_count (a : pyfloat) (n : positive) : pyfloat :=
  match a with
  | FNum p => FNum (Qred (p / (Z.pos n # 1)))
  | other => other
  end.

Definition float_of_int (z : Z) : pyfloat := FNum (z # 1).

(** ** Number formatting ([format] with [.1f] and [,.0f]) *)

(** Round to the nearest integer, ties to the even neighbour. *)
Definition round_half_even (q : Q) : Z :=
  let n := Qnum q in
  let d := Z.pos (Qden q) in
  let fl := n / d in
  match 2 * (n mod d) ?= d with
  | Lt => fl
  | Gt => fl + 1
  | Eq => if Z.even fl then fl else fl + 1
  end.

Definition sign_prefix (q : Q) : string :=
  if Qnum q <? 0 then "-" else "".

(** [f"{x:.1f}"] *)
Definition format_1f (x : pyfloat) : string :=
  match x with
  | FNaN => "nan"
  | FInf true => "-inf"
  | FInf false => "inf"
  | FNum q =>
      let t := Z.abs (round_half_even (q * 10)) in
      sign_prefix q +:+ pretty (t / 10) +:+ "." +:+ pretty (t mod 10)
  end.

Definition pad3 (n : N) : string :=
  (if (n <? 100)%N then "0" else "") +:+ (if (n <? 10)%N then "0" else "") +:+ pretty n.

Fixpoint group_thousands (fuel : nat) (n : N) : string :=
  match fuel with
  | O => pretty n
  | S fuel' =>
      if (n <? 1000)%N then pretty n
      else group_thousands fuel' (n / 1000)%N +:+ "," +:+ pad3 (n mod 1000)%N
  end.

(** [f"{x:,.0f}"] on a float. *)
Definition format_comma_0f (x : pyfloat) : string :=
  match x with
  | FNaN => "nan"
  | FInf true => "-inf"
  | FInf false => "inf"
  | FNum q =>
      let t := Z.to_N (Z.abs (round_half_even q)) in
      sign_prefix q +:+ group_thousands (N.size_nat t) t
  end.

(** The same format applied to whatever [Series.sum()] returned: numbers are
    formatted, a [str] has no format code [f]. *)
Definition format_comma_0f_value (v : value) : result string :=
  match v with
  | VInt z => Ok (format_comma_0f (float_of_int z))
  | VFloat f => Ok (format_comma_0f f)
  | VStr _ => Raise (ValueError "Unknown format code 'f' for object of type 'str'")
  end.

(** ** DataFrames *)

Record DataFrame := mkDataFrame {
  columns : list string;
  rows : list (list value)
}.

#[global] Instance DataFrame_eq_dec : EqDecision DataFrame.
Proof. solve_decision. Defined.

(** [len(df)] *)
Definition len (df : DataFrame) : nat := length (rows df).

(** Position of the column labelled [c]; [None] is [c not in df.columns]. *)
Fixpoint column_index (c : string) (cols : list string) : option nat :=
  match cols with
  | [] => None
  | c' :: cols' => if String.eqb c c' then Some O else S <$> column_index c cols'
  end.

(** [c in df.columns] *)
Definition has_column (c : string) (df : DataFrame) : bool :=
  bool_decide (c ∈ columns df).

Definition cell (i : nat) (row : list value) : value := default NaN (row !! i).

(** The cells of column number [i], top to bottom. *)
Definition column_at (i : nat) (df : DataFrame) : Series := cell i <$> rows df.

(** [df[c]] *)
Definition getitem (df : DataFrame) (c : string) : result Series :=
  match column_index c (columns df) with
  | Some i => Ok (column_at i df)
  | None => Raise (KeyError c)
  end.

(** Writing cell [i] of a row; a row that is too short (its missing cells
    read as NaN) is extended. *)
Fixpoint put (i : nat) (v : value) (row : list value) : list value :=
  match i, row with
  | O, [] => [v]
  | O, _ :: row' => v :: row'
  | S i', [] => NaN :: put i' v []
  | S i', x :: row' => x :: put i' v row'
  end.

(** [df[c] = s] for the column at position [i]: that cell of every row is
    replaced. *)
Definition set_column_at (i : nat) (s : Series) (df : DataFrame) : DataFrame :=
  mkDataFrame (columns df) (zip_with (fun row v => put i v row) (rows df) s).

(** ** Library routines outside the script *)

Class PyLib := {
  (** [float(s)]; [None] is the [ValueError] of a string that is no number. *)
  float_of_str : string -> option pyfloat;
  (** [str(x)] for a float [x]. *)
  str_of_float : pyfloat -> string;
  (** [pd.read_csv] on the text of a CSV file. *)
  read_csv : string -> result DataFrame;
  (** [requests.get(url, timeout=10)] followed by [raise_for_status()] and
      [.text]. *)
  requests_get : string -> result string
}.

(** What the proofs below use of Python's float conversions: the text
    printed for a float that came out of [float(s)] reads back as that
    float, and contains no percent sign. *)
Class PyFloatLaws (L : PyLib) : Prop := {
  float_repr_roundtrip :
    forall s f, float_of_str s = Some f -> float_of_str (str_of_float f) = Some f;
  float_repr_no_percent :
    forall f c, c ∈ list_ascii_of_string (str_of_float f) -> c <> "%"%char
}.

(** ** Series operations used by the script *)

(** [str(v)] on a cell, as [Series.astype(str)] applies it. *)
Definition str_of_value `{PyLib} (v : value) : string :=
  match v with
  | VInt z => pretty z
  | VFloat f => str_of_float f
  | VStr s => s
  end.

(** [s.replace('%', '')]: every occurrence of the character is dropped. *)
Fixpoint remove_percent (s : string) : string :=
  match s with
  | EmptyString => EmptyString
  | String c s' =>
      if Ascii.eqb c "%" then remove_percent s' else String c (remove_percent s')
  end.

(** [Series.astype(float)] on a column of strings: the first cell that is
    no number raises. *)
Fixpoint astype_float `{PyLib} (texts : list string) : result Series :=
  match texts with
  | [] => Ok []
  | t :: texts' =>
      match float_of_str t with
      | None => Raise (ValueError ("could not convert string to float: '" +:+ t +:+ "'"))
      | Some f => result_bind (astype_float texts') (fun fs => Ok (VFloat f :: fs))
      end
  end.

(** [s.astype(str).str.replace('%', '').astype(float)] (line 51). *)
Definition clean_series `{PyLib} (s : Series) : result Series :=
  astype_float (remove_percent <$> (str_of_value <$> s)).

(** The same expression on one cell. *)
Definition normalize_cell `{PyLib} (v : value) : option pyfloat :=
  float_of_str (remove_percent (str_of_value v)).

Definition is_int (v : value) : bool := if v is VInt _ then true else false.
Definition is_str (v : value) : bool := if v is VStr _ then true else false.
Definition is_number (v : value) : bool := negb (is_str v).

Definition int_of (v : value) : Z := if v is VInt z then z else 0.
Definition str_of (v : value) : string := if v is VStr s then s else "".
Definition float_of (v : value) : pyfloat :=
  match v with
  | VInt z => float_of_int z
  | VFloat f => f
  | VStr _ => FNaN
  end.

(** Two's complement wrap-around of an [int64] accumulator. *)
Definition wrap_int64 (z : Z) : Z := (z + 2 ^ 63) mod 2 ^ 64 - 2 ^ 63.

Definition fsum (fs : list pyfloat) : pyfloat := foldl fadd (FNum 0) fs.

(** [Series.sum()]: missing cells are skipped; an integer column adds in
    [int64], a float column in floats, a column of strings concatenates, and
    a column mixing strings with numbers cannot be added. *)
Definition series_sum (s : Series) : result value :=
  let s' := dropna s in
  if forallb is_int s' then Ok (VInt (wrap_int64 (foldl Z.add 0 (int_of <$> s'))))
  else if forallb is_number s' then Ok (VFloat (fsum (float_of <$> s')))
  else if forallb is_str s' then Ok (VStr (foldl String.append "" (str_of <$> s')))
  else Raise (TypeError "unsupported operand type(s) for +").

(** [Series.mean()]: missing cells are skipped; with nothing left the mean is
    NaN (the count is tested before the division), and strings have no mean. *)
Definition series_mean (s : Series) : result pyfloat :=
  let s' := dropna s in
  if forallb is_number s' then
    match s' with
    | [] => Ok FNaN
    | _ :: _ => Ok (fdiv_count (fsum (float_of <$> s')) (Pos.of_nat (length s')))
    end
  else Raise (TypeError "Could not convert string to numeric").

(** [len(df[df[c] == 'R'])]: the rows whose cell is the string. *)
Definition count_equal (code : string) (s : Series) : nat :=
  length (filter (fun v => v = VStr code) s).

(** [Series.value_counts()]: one entry per distinct cell that is not
    missing, with its number of occurrences, largest count first. Entries
    are collected in order of first appearance and then sorted. *)
Fixpoint bump (v : value) (acc : list (value * nat)) : list (value * nat) :=
  match acc with
  | [] => [(v, 1%nat)]
  | (w, n) :: acc' => if decide (w = v) then (w, S n) :: acc' else (w, n) :: bump v acc'
  end.

Definition tally (s : Series) : list (value * nat) :=
  foldl (fun acc v => bump v acc) [] s.

Definition count_ge (a b : value * nat) : Prop := (b.2 <= a.2)%nat.

#[global] Instance count_ge_dec a b : Decision (count_ge a b).
Proof. unfold count_ge. apply _. Defined.

Definition value_counts (s : Series) : list (value * nat) :=
  merge_sort count_ge (tally (dropna s)).

(** ** The figure built by [create_scatter_plot]

    The figure is kept as data: markers, shapes, annotations, axes, size and
    hover template. Styling that no property below speaks of (legend box,
    margins, fonts of the titles, grid colours, arrow heads, backgrounds of
    the labels) is left out. *)

Inductive shape :=
| Rect (x0 y0 x1 y1 : Q) (fillcolor : string) (opacity : Q) (layer : string) (line_width : Z)
| VLine (x : Q) (line_dash line_color : string) (line_width : Z) (opacity : Q)
| HLine (y : Q) (line_dash line_color : string) (line_width : Z) (opacity : Q)
| Line (x0 y0 x1 y1 : Q) (color : string) (width : Z).

Record annotation := mkAnnotation {
  ann_x : Q;
  ann_y : Q;
  ann_text : string;
  ann_showarrow : bool;
  ann_font_size : option Z;
  ann_font_color : option string
}.

Record axis := mkAxis {
  axis_range : Q * Q;
  axis_dtick : Z;
  axis_title : string;
  axis_side : string;
  axis_showgrid : bool;
  axis_zeroline : bool
}.

(** One marker of the scatter trace: position, bubble size, the risk code it
    is grouped by, and the colour [color_discrete_map] gives that code
    ([None]: the code is no key of the map). *)
Record point := mkPoint {
  pt_x : value;
  pt_y : value;
  pt_size : value;
  pt_risk : value;
  pt_color : option string
}.

Record Figure := mkFigure {
  fig_points : list point;
  fig_size_max : Z;
  fig_shapes : list shape;
  fig_annotations : list annotation;
  fig_xaxis : axis;
  fig_yaxis : axis;
  fig_width : Z;
  fig_height : Z;
  fig_title : string;
  fig_hovertemplate : string;
  fig_customdata : list (list value)
}.

(** Line 97. *)
Definition color_map : gmap string string :=
  {[ "R" := "#FF4444"; "A" := "#FFA500"; "G" := "#00AA00" ]}.

Definition risk_color (risk : value) : option string :=
  match risk with
  | VStr code => color_map !! code
  | _ => None
  end.

Definition required_columns : list string :=
  [ "Client_Name";
    "Strategic_Importance_(1-5)";
    "Spend_Potential_(1-5)";
    "Relationship_Risk_(R/A/G)";
    "FY25_Revenue";
    "%_of_Total_Revenue" ].

(** Lines 125-140, 153-154 and 223-237, in the order the shapes are added. *)
Definition figure_shapes : list shape :=
  [ Rect 0.5 3 3 5.5 "lightgray" 0.15 "below" 0;
    Rect 3 3 5.5 5.5 "lightblue" 0.15 "below" 0;
    Rect 0.5 0.5 3 3 "lightyellow" 0.15 "below" 0;
    Rect 3 0.5 5.5 3 "lightgreen" 0.15 "below" 0;
    VLine 3 "solid" "darkgray" 2 0.7;
    HLine 3 "solid" "darkgray" 2 0.7;
    Line 0.5 0.5 5.5 0.5 "black" 3;
    Line 0.5 0.5 0.5 5.5 "black" 3 ].

(** Lines 143-150 and 227-260. *)
Definition figure_annotations : list annotation :=
  [ mkAnnotation 1.75 4.25 "<b>Bronze</b>" false (Some 16) (Some "gray");
    mkAnnotation 4.25 4.25 "<b>Platinum</b>" false (Some 16) (Some "darkblue");
    mkAnnotation 1.75 1.75 "<b>Silver</b>" false (Some 16) (Some "gray");
    mkAnnotation 4.25 1.75 "<b>Gold</b>" false (Some 16) (Some "darkgreen");
    mkAnnotation 5.5 0.5 "" true None None;
    mkAnnotation 0.5 5.5 "" true None None;
    mkAnnotation 5.7 0.3 "HIGH" false (Some 12) (Some "black");
    mkAnnotation 0.3 0.3 "LOW" false (Some 12) (Some "black");
    mkAnnotation 0.3 5.7 "HIGH" false (Some 12) (Some "black");
    mkAnnotation 0.3 0.8 "LOW" false (Some 12) (Some "black") ].

Definition figure_xaxis : axis :=
  mkAxis (0.5, 5.5)%Q 1
    "<b>SPEND POTENTIAL</b><br>(how much budget available to spend with the agency?)"
    "bottom" true false.

Definition figure_yaxis : axis :=
  mkAxis (0.5, 5.5)%Q 1
    "<b>STRATEGIC IMPORTANCE</b><br>(how important is this account to the agency?)"
    "left" true false.

Definition hovertemplate : string :=
  "<b>%{customdata[0]}</b><br>" +:+
  "Strategic Importance: %{y}<br>" +:+
  "Spend Potential: %{x}<br>" +:+
  "Relationship Risk: %{customdata[3]}<br>" +:+
  "FY25 Revenue: £%{customdata[4]:,.0f}<br>" +:+
  "% of Total Revenue: %{customdata[5]:.1f}%<br>" +:+
  "<extra></extra>".

(** The indices of the named columns, or the first name that is missing. *)
Fixpoint column_indices (names : list string) (df : DataFrame) : result (list nat) :=
  match names with
  | [] => Ok []
  | c :: names' =>
      match column_index c (columns df) with
      | None => Raise (KeyError c)
      | Some i => result_bind (column_indices names' df) (fun idx => Ok (i :: idx))
      end
  end.

(** [df[names].values] *)
Definition values_of (names : list string) (df : DataFrame) : result (list (list value)) :=
  result_bind (column_indices names df)
    (fun idx => Ok ((fun row => (fun i => cell i row) <$> idx) <$> rows df)).

(** [px.scatter(df, x=..., y=..., size=..., color=..., color_discrete_map=...)]:
    one marker per row. *)
Definition px_scatter (df : DataFrame) : result (list point) :=
  result_bind (values_of
      [ "Spend_Potential_(1-5)"; "Strategic_Importance_(1-5)";
        "%_of_Total_Revenue"; "Relationship_Risk_(R/A/G)" ] df)
    (fun cells =>
       Ok ((fun r => mkPoint (cell 0 r) (cell 1 r) (cell 2 r) (cell 3 r)
                       (risk_color (cell 3 r))) <$> cells)).

Definition create_scatter_plot (df : DataFrame) : result Figure :=
  result_bind (px_scatter df) (fun pts =>
  result_bind (values_of required_columns df) (fun custom =>
  Ok (mkFigure pts 60 figure_shapes figure_annotations figure_xaxis figure_yaxis
        900 700 "<b>Client Categorisation Matrix</b>" hovertemplate custom))).

(** *** Reading the quadrants off the figure *)

Inductive quadrant := Bronze | Platinum | Silver | Gold.

#[global] Instance quadrant_eq_dec : EqDecision quadrant.
Proof. solve_decision. Defined.







(** ** Store, page and exceptions *)

Definition loc := nat.

(** [fig.to_image(format=..., width=..., height=..., scale=...)] *)
Record image := mkImage {
  img_fig : Figure;
  img_format : string;
  img_width : Z;
  img_height : Z;
  img_scale : Z
}.

(** What a Streamlit call puts on the page. *)
Inductive ui :=
| st_title (text : string)
| st_markdown (text : string)
| st_subheader (text : string)
| st_info (text : string)
| st_error (text : string)
| st_warning (text : string)
| st_dataframe (expander : string) (df : DataFrame)
| st_plotly_chart (fig : Figure)
| st_download_button (label : string) (data : image) (file_name mime : string)
| st_metric (label value : string)
| st_write (text : string).

Record world := mkWorld {
  heap : gmap loc DataFrame;
  page : list ui
}.

Definition M (A : Type) : Type := world -> result A * world.

#[global] Instance M_ret : MRet M := fun A (a : A) w => (Ok a, w).

#[global] Instance M_bind : MBind M := fun A B (k : A -> M B) (m : M A) w =>
  match m w with
  | (Ok a, w') => k a w'
  | (Raise e, w') => (Raise e, w')
  end.

(** A computation that only raises or returns. *)
Definition lift {A} (r : result A) : M A := fun w => (r, w).

(** [try: m except Exception as e: handler(e)] *)
Definition try_except {A} (m : M A) (handler : exn -> M A) : M A :=
  fun w =>
    match m w with
    | (Ok a, w') => (Ok a, w')
    | (Raise e, w') => handler e w'
    end.

Definition show (u : ui) : M unit :=
  fun w => (Ok tt, mkWorld (heap w) (page w ++ [u])%list).

(** A new DataFrame object. *)
Definition alloc (df : DataFrame) : M loc :=
  fun w =>
    let l := fresh (dom (heap w)) in
    (Ok l, mkWorld (<[l:=df]> (heap w)) (page w)).

Definition deref (l : loc) : M DataFrame :=
  fun w =>
    match heap w !! l with
    | Some df => (Ok df, w)
    | None => (Raise (OtherError "dangling reference"), w)
    end.

(** Replace the object behind a reference (an in-place update). *)
Definition store (l : loc) (df : DataFrame) : M unit :=
  fun w => (Ok tt, mkWorld (<[l:=df]> (heap w)) (page w)).

(** [", ".join(items)] *)
Fixpoint join (sep : string) (items : list string) : string :=
  match items with
  | [] => ""
  | [x] => x
  | x :: rest => x +:+ sep +:+ join sep rest
  end.

(** ** The script *)

(** Lines 28-41. *)
Definition DEMO_DATA : string :=
"Client_Name,Strategic_Importance_(1-5),Spend_Potential_(1-5),Relationship_Risk_(R/A/G),FY25_Revenue,%_of_Total_Revenue
Arctic Tours,1,2,R,200000,28%
Blackpool Tower,1,2,A,5000,1%
Crest Hotels,4,1,G,35000,5%
Dan Air,4,5,A,26500,4%
EasyJetter,5,4,G,30000,4%
Finland Tourist Board,1,4,A,60000,8%
Grange Hotel Group,3,3,R,45000,6%
Hotelfinance.com,4,2,A,92500,13%
Iceland Tours,5,1,R,69500,10%
Jupiter Travel Ltd,1,1,A,8500,1%
Kenyan Safari Group,2,2,A,16000,2%
Lapland Holidays,4,3,G,16000,2%
Monte Carlo Yachting Group,5,5,G,105000,15%".

Section Script.
Context `{L : PyLib}.

Definition load_demo_data : M loc :=
  df ← lift (read_csv DEMO_DATA) ;
  alloc df.

(** [df.copy()]: a new object with the same content. *)
Definition DataFrame_copy (l : loc) : M loc :=
  df ← deref l ;
  alloc df.

(** [df[c] = s], in place: an existing column is overwritten, a new label
    is appended as the last column. *)
Definition setitem (l : loc) (c : string) (s : Series) : M unit :=
  df ← deref l ;
  match column_index c (columns df) with
  | Some i => store l (set_column_at i s df)
  | None =>
      store l (mkDataFrame (columns df ++ [c])%list
                 (zip_with (fun row v => put (length (columns df)) v row) (rows df) s))
  end.

(** Lines 47-52. The name [df] is rebound to the copy, so the test, the
    read and the assignment all address the copy. *)
Definition clean_percentage_column (l : loc) : M loc :=
  l' ← DataFrame_copy l ;
  df ← deref l' ;
  (if has_column "%_of_Total_Revenue" df then
     s ← lift (getitem df "%_of_Total_Revenue") ;
     s' ← lift (clean_series s) ;
     setitem l' "%_of_Total_Revenue" s'
   else mret tt) ;;
  mret l'.

(** Lines 54-63. *)
Definition load_data_from_url (url : string) : M (option loc) :=
  try_except
    (text ← lift (requests_get url) ;
     df ← lift (read_csv text) ;
     l ← alloc df ;
     l' ← clean_percentage_column l ;
     mret (Some l'))
    (fun e =>
       show (st_error ("Error loading data from URL: " +:+ exn_message e)) ;;
       mret None).

(** Lines 65-72. The uploaded file is its text. *)
Definition load_data_from_file (uploaded_file : string) : M (option loc) :=
  try_except
    (df ← lift (read_csv uploaded_file) ;
     l ← alloc df ;
     l' ← clean_percentage_column l ;
     mret (Some l'))
    (fun e =>
       show (st_error ("Error loading data from file: " +:+ exn_message e)) ;;
       mret None).

(** Line 85. *)
Definition missing_columns (df : DataFrame) : list string :=
  filter (fun col => col ∉ columns df) required_columns.

(** Lines 74-92. *)
Definition validate_data (l : loc) : M bool :=
  df ← deref l ;
  match missing_columns df with
  | _ :: _ =>
      show (st_error ("Missing required columns: " +:+ join ", " (missing_columns df))) ;;
      show (st_info ("Required columns: " +:+ join ", " required_columns)) ;;
      mret false
  | [] => mret true
  end.

Definition risk_labels : gmap string string :=
  {[ "R" := "Red (High Risk)"; "A" := "Amber (Medium Risk)"; "G" := "Green (Low Risk)" ]}.

(** Line 389: [(count / len(df)) * 100]. The loop only runs for codes that
    occur, so the table has rows; a division by zero would give infinity. *)
Definition percentage (count total : nat) : pyfloat :=
  match total with
  | O => FInf false
  | S _ => FNum (Qred ((Z.of_nat count # Pos.of_nat total) * 100))
  end.

(** Lines 389-391: one line of the risk distribution. *)
Definition risk_line (total : nat) (entry : value * nat) : string :=
  let '(risk, count) := entry in
  let risk_str := str_of_value risk in
  "• " +:+ default risk_str (risk_labels !! risk_str) +:+ ": " +:+ pretty count
    +:+ " clients (" +:+ format_1f (percentage count total) +:+ "%)".

(** Lines 362-391. *)
Definition show_summary (df : DataFrame) : M unit :=
  show (st_markdown "---") ;;
  show (st_subheader "📊 Data Summary") ;;
  show (st_metric "Total Clients" (pretty (len df))) ;;
  revenue ← lift (getitem df "FY25_Revenue") ;
  total_revenue ← lift (series_sum revenue) ;
  total_text ← lift (format_comma_0f_value total_revenue) ;
  show (st_metric "Total Revenue" ("£" +:+ total_text)) ;;
  risk ← lift (getitem df "Relationship_Risk_(R/A/G)") ;
  let high_risk_count := count_equal "R" risk in
  show (st_metric "High Risk Clients" (pretty high_risk_count)) ;;
  importance ← lift (getitem df "Strategic_Importance_(1-5)") ;
  avg_strategic_importance ← lift (series_mean importance) ;
  show (st_metric "Avg Strategic Importance" (format_1f avg_strategic_importance)) ;;
  show (st_markdown "**Risk Level Distribution:**") ;;
  risk' ← lift (getitem df "Relationship_Risk_(R/A/G)") ;
  let risk_counts := value_counts risk' in
  foldr (fun entry rest => show (st_write (risk_line (len df) entry)) ;; rest)
        (mret tt) risk_counts.

Record inputs := mkInputs {
  (** [st.radio]: "Demo Data" or "User Data". *)
  data_mode : string;
  (** [st.file_uploader]: the text of the uploaded file, if any. *)
  uploaded_file : option string;
  (** [st.text_input] *)
  csv_url : string;
  (** [st.button("Download Chart as PNG")] *)
  download_clicked : bool
}.

Definition required_columns_help : string :=
"
            **Required columns:**
            - `Client_Name`
            - `Strategic_Importance_(1-5)`
            - `Spend_Potential_(1-5)`
            - `Relationship_Risk_(R/A/G)` (values: R, A, G)
            - `FY25_Revenue`
            - `%_of_Total_Revenue`
            ".

Definition data_format_help : string :=
"
            Your CSV file must contain the following columns with exact names:
            
            | Column Name | Description | Expected Values |
            |-------------|-------------|-----------------|
            | `Client_Name` | Name of the client | Text |
            | `Strategic_Importance_(1-5)` | Strategic importance rating | Numbers 1-5 |
            | `Spend_Potential_(1-5)` | Potential spending rating | Numbers 1-5 |
            | `Relationship_Risk_(R/A/G)` | Risk level | R (Red), A (Amber), or G (Green) |
            | `FY25_Revenue` | Revenue for FY25 | Numeric values |
            | `%_of_Total_Revenue` | Percentage of total revenue | Numbers with or without % symbol |
            ".

(** Lines 293-335: the table the page works on, if one could be loaded. *)
Definition load_data (i : inputs) : M (option loc) :=
  if String.eqb (data_mode i) "Demo Data" then
    show (st_info "Using embedded demo data for immediate testing and validation.") ;;
    l ← load_demo_data ;
    l' ← clean_percentage_column l ;
    df ← deref l' ;
    show (st_dataframe "📋 View Demo Data" df) ;;
    mret (Some l')
  else
    show (st_info "Upload your own CSV file or provide a URL to load custom data.") ;;
    show (st_markdown "**Option 1: Upload CSV File**") ;;
    from_file ← match uploaded_file i with
                | Some text => load_data_from_file text
                | None => mret None
                end ;
    show (st_markdown "**Option 2: CSV URL**") ;;
    loaded ← (if negb (String.eqb (csv_url i) "") && negb (bool_decide (is_Some (uploaded_file i)))
              then load_data_from_url (csv_url i)
              else mret from_file) ;
    match loaded with
    | Some l =>
        df ← deref l ;
        show (st_dataframe "📋 View Loaded Data" df) ;;
        mret loaded
    | None => mret loaded
    end.

(** Lines 340-360. *)
Definition show_chart (i : inputs) (df : DataFrame) : M unit :=
  show (st_markdown "---") ;;
  show (st_subheader "📈 Visualization") ;;
  fig ← lift (create_scatter_plot df) ;
  show (st_plotly_chart fig) ;;
  show (st_markdown "---") ;;
  if download_clicked i then
    show (st_download_button "💾 Save PNG File" (mkImage fig "png" 1200 800 2)
            "client_categorisation_matrix.png" "image/png")
  else mret tt.

(** Lines 337-423: validate and display. *)
Definition display (i : inputs) (loaded : option loc) : M unit :=
  match loaded with
  | Some l =>
      valid ← validate_data l ;
      if valid : bool then
        df ← deref l ;
        show_chart i df ;;
        show_summary df
      else
        show (st_warning "Please ensure your data has all required columns.") ;;
        show (st_markdown required_columns_help)
  | None =>
      if String.eqb (data_mode i) "User Data" then
        show (st_info "👆 Please upload a CSV file or provide a URL to load your data.") ;;
        show (st_markdown "---") ;;
        show (st_subheader "📋 Data Format Requirements") ;;
        show (st_markdown data_format_help)
      else mret tt
  end.

(** Lines 277-423. *)
Definition main (i : inputs) : M unit :=
  show (st_title "📊 Client Categorisation Matrix") ;;
  show (st_markdown "---") ;;
  show (st_subheader "Data Source") ;;
  loaded ← load_data i ;
  display i loaded.

(** Running a computation on a fresh page with an empty store. *)
Definition empty_world : world := mkWorld ∅ [].
Definition run {A} (m : M A) : result A * world := m empty_world.
End Script.

(** ** An executable library: decimal literals and comma-separated text *)

Module Decimal.
Local Open Scope N_scope.

Definition is_space (c : ascii) : bool :=
  bool_decide (N_of_ascii c ∈ [32; 9; 10; 11; 12; 13]).

Fixpoint lstrip (l : list ascii) : list ascii :=
  match l with
  | c :: l' => if is_space c then lstrip l' else l
  | [] => []
  end.

Definition strip (l : list ascii) : list ascii := rev (lstrip (rev (lstrip l))).

Definition digit_of (c : ascii) : option N :=
  let n := N_of_ascii c in
  if (48 <=? n) && (n <=? 57) then Some (n - 48) else None.

Definition digit_char (d : N) : ascii := ascii_of_N (48 + d).

Fixpoint digits_value_from (acc : N) (l : list ascii) : option N :=
  match l with
  | [] => Some acc
  | c :: l' =>
      match digit_of c with
      | Some d => digits_value_from (10 * acc + d) l'
      | None => None
      end
  end.

(** The number written by a string of decimal digits. *)
Definition digits_value (l : list ascii) : option N := digits_value_from 0 l.

(** The [k] low-order decimal digits of [n], most significant first. *)
Fixpoint fixed_digits (k : nat) (n : N) : list ascii :=
  match k with
  | O => []
  | S k' => (fixed_digits k' (n / 10) ++ [digit_char (n mod 10)])%list
  end.

Fixpoint num_digits_aux (fuel : nat) (n : N) : nat :=
  match fuel with
  | O => 1
  | S fuel' => if n <? 10 then 1%nat else S (num_digits_aux fuel' (n / 10))
  end.

Definition num_digits (n : N) : nat := num_digits_aux (N.size_nat n) n.

(** Decimal digits of [n] without leading zeros. *)
Definition show_N (n : N) : list ascii := fixed_digits (num_digits n) n.

(** Cut at the first character satisfying [P]. *)
Fixpoint split_at (P : ascii -> bool) (l : list ascii) : list ascii * option (list ascii) :=
  match l with
  | [] => ([], None)
  | c :: l' =>
      if P c then ([], Some l')
      else let '(a, b) := split_at P l' in (c :: a, b)
  end.

Definition parse_sign (l : list ascii) : bool * list ascii :=
  match l with
  | c :: l' =>
      if Ascii.eqb c "-" then (true, l')
      else if Ascii.eqb c "+" then (false, l')
      else (false, l)
  | [] => (false, [])
  end.

Definition signed (negative : bool) (n : N) : Z :=
  if negative then (- Z.of_N n)%Z else Z.of_N n.

Definition parse_exponent (l : option (list ascii)) : option Z :=
  match l with
  | None => Some 0%Z
  | Some e =>
      let '(negative, ds) := parse_sign e in
      match ds with
      | [] => None
      | _ => signed negative <$> digits_value ds
      end
  end.

(** Digits with an optional point: the number written without the point,
    and how many digits follow the point. *)
Definition parse_mantissa (l : list ascii) : option (N * nat) :=
  let '(ip, fp) := split_at (Ascii.eqb ".") l in
  let fp' := default [] fp in
  match (ip ++ fp')%list with
  | [] => None
  | ds => (fun n => (n, length fp')) <$> digits_value ds
  end.

(** The float [m * 10 ^ e], as a fraction in lowest terms. *)
Definition mk_decimal (m e : Z) : pyfloat :=
  FNum (Qred (if (0 <=? e)%Z then (m * 10 ^ e # 1) else (m # Z.to_pos (10 ^ (- e))))).

Definition to_lower (c : ascii) : ascii :=
  let n := N_of_ascii c in
  if (65 <=? n) && (n <=? 90) then ascii_of_N (n + 32) else c.

Definition is_e (c : ascii) : bool := Ascii.eqb c "e" || Ascii.eqb c "E".

(** [float(s)] for decimal literals: surrounding white space, a sign,
    digits with an optional point, an optional exponent, and the spellings
    of NaN and infinity. Digit-group underscores and signed zeros are not
    modelled. *)
Definition parse_float (l : list ascii) : option pyfloat :=
  let '(negative, body) := parse_sign (strip l) in
  let lower := string_of_list_ascii (to_lower <$> body) in
  if String.eqb lower "nan" then Some FNaN
  else if String.eqb lower "inf" || String.eqb lower "infinity" then Some (FInf negative)
  else
    let '(m, e) := split_at is_e body in
    '(n, k) ← parse_mantissa m ;
    x ← parse_exponent e ;
    Some (mk_decimal (signed negative n) (x - Z.of_nat k)).

(** The least [k] with [r] dividing [10 ^ k], found by cancelling the
    factors [r] shares with 10. *)
Fixpoint decimal_places_aux (fuel : nat) (r : Z) (k : nat) : option nat :=
  if (r =? 1)%Z then Some k
  else
    match fuel with
    | O => None
    | S fuel' =>
        let g := Z.gcd r 10 in
        if (g =? 1)%Z then None else decimal_places_aux fuel' (r / g)%Z (S k)
    end.

Definition decimal_places (d : positive) : option nat :=
  decimal_places_aux (Pos.size_nat d) (Z.pos d) O.

(** [str(x)] for a float: the shortest decimal that reads back, always with
    a point. A fraction with no finite decimal expansion (the script never
    prints one) is cut after 17 places. Exponent notation is not modelled. *)
Definition print_float (x : pyfloat) : list ascii :=
  match x with
  | FNaN => list_ascii_of_string "nan"
  | FInf true => list_ascii_of_string "-inf"
  | FInf false => list_ascii_of_string "inf"
  | FNum q =>
      let sign := if (Qnum q <? 0)%Z then ["-"%char] else [] in
      let a := Z.abs_N (Qnum q) in
      let d := Npos (Qden q) in
      match decimal_places (Qden q) with
      | Some k =>
          let m := a * (10 ^ N.of_nat k / d) in
          (sign ++ show_N (m / 10 ^ N.of_nat k) ++ "."%char ::
             match k with
             | O => ["0"%char]
             | S _ => fixed_digits k (m mod 10 ^ N.of_nat k)
             end)%list
      | None =>
          let m := a * 10 ^ 17 / d in
          (sign ++ show_N (m / 10 ^ 17) ++ "."%char :: fixed_digits 17 (m mod 10 ^ 17))%list
      end
  end.

(** *** Reading comma-separated text *)

Fixpoint split_on (sep : ascii) (l : list ascii) : list (list ascii) :=
  match l with
  | [] => [[]]
  | c :: l' =>
      if Ascii.eqb c sep then [] :: split_on sep l'
      else
        match split_on sep l' with
        | field :: fields => (c :: field) :: fields
        | [] => [[c]]
        end
  end.

Definition parse_int (l : list ascii) : option Z :=
  let '(negative, ds) := parse_sign l in
  match ds with
  | [] => None
  | _ => signed negative <$> digits_value ds
  end.

(** An empty field is a missing cell. *)
Definition field_float (l : list ascii) : option pyfloat :=
  match l with
  | [] => Some FNaN
  | _ => parse_float l
  end.

Definition field_str (l : list ascii) : value :=
  match l with
  | [] => NaN
  | _ => VStr (string_of_list_ascii l)
  end.

Definition is_some {A} (o : option A) : bool := if o is Some _ then true else false.

(** How the cells of one column are read: integers if every cell is one,
    else floats if every cell is a number or empty, else text. *)
Inductive dtype := Int64 | Float64 | Object.

Definition infer_dtype (cells : list (list ascii)) : dtype :=
  if forallb (fun c => is_some (parse_int c)) cells then Int64
  else if forallb (fun c => is_some (field_float c)) cells then Float64
  else Object.

Definition read_field (t : dtype) (l : list ascii) : value :=
  match t with
  | Int64 => VInt (default 0%Z (parse_int l))
  | Float64 => VFloat (default FNaN (field_float l))
  | Object => field_str l
  end.

Definition field (i : nat) (record : list (list ascii)) : list ascii :=
  default [] (record !! i).

(** [pd.read_csv] on unquoted comma-separated text: the first line is the
    header, blank lines are skipped, short records are filled with missing
    cells, a record longer than the header is an error, and a table without
    records has columns of text. *)
Definition parse_csv (text : string) : result DataFrame :=
  let lines := filter (fun l => l <> []) (split_on (ascii_of_N 10) (list_ascii_of_string text)) in
  match lines with
  | [] => Raise (OtherError "No columns to parse from file")
  | header :: records =>
      let names := split_on "," header in
      let table := split_on "," <$> records in
      if forallb (fun r => (length r <=? length names)%nat) table then
        let dtypes :=
          (fun i => match table with
                    | [] => Object
                    | _ => infer_dtype ((field i) <$> table)
                    end) <$> seq 0 (length names) in
        Ok (mkDataFrame (string_of_list_ascii <$> names)
              ((fun r => (fun '(i, t) => read_field t (field i r)) <$> zip (seq 0 (length names)) dtypes)
                 <$> table))
      else Raise (OtherError "Error tokenizing data")
  end.

Definition is_digit (c : ascii) : bool := if digit_of c is Some _ then true else false.

(** Characters a printed float is made of. *)
Definition is_plain (c : ascii) : bool :=
  negb (is_space c) && negb (is_e c) && negb (Ascii.eqb c "%").

(** A float that [parse_float] can return: a fraction in lowest terms whose
    denominator divides a power of ten, NaN or an infinity. *)
Definition decimal_float (x : pyfloat) : Prop :=
  match x with
  | FNum q => Qred q = q /\ exists j : nat, (Z.pos (Qden q) | 10 ^ Z.of_nat j)%Z
  | _ => True
  end.

End Decimal.

(** The library instance; [web] answers [requests.get]. *)
Definition DecimalLib (web : string -> result string) : PyLib := {|
  float_of_str s := Decimal.parse_float (list_ascii_of_string s);
  str_of_float x := string_of_list_ascii (Decimal.print_float x);
  read_csv := Decimal.parse_csv;
  requests_get := web
|}.

Definition offline (url : string) : result string :=
  Raise (OtherError "connection refused").

(** ** Vocabulary of the properties *)




Definition all_required_present (df : DataFrame) : Prop :=
  Forall (fun c => c ∈ columns df) required_columns.

(** The table with the six required columns and no rows. *)
Definition empty_table : DataFrame := mkDataFrame required_columns [].



Definition pct : string := "%_of_Total_Revenue".

(** What [validate_data] shows for a table with missing columns (lines 88-89). *)
Definition validation_report (df : DataFrame) : list ui :=
  [ st_error ("Missing required columns: " +:+ join ", " (missing_columns df));
    st_info ("Required columns: " +:+ join ", " required_columns) ].

(** What the page gets after a failed validation (lines 394-403). *)
Definition validation_help : list ui :=
  [ st_warning "Please ensure your data has all required columns.";
    st_markdown required_columns_help ].

(** How often a cell occurs in a column. *)
Definition count_in (v : value) (s : Series) : nat :=
  length (filter (fun w => w = v) s).

(** The count recorded for [v] in a tally. *)
Fixpoint recorded (v : value) (acc : list (value * nat)) : nat :=
  match acc with
  | [] => O
  | (w, n) :: acc' => if decide (w = v) then n else recorded v acc'
  end.

(** The headline metrics of lines 363-384. *)
Definition summary_header (df : DataFrame) (risk : Series) (total_text avg_text : string) :
    list ui :=
  [ st_markdown "---";
    st_subheader "📊 Data Summary";
    st_metric "Total Clients" (pretty (len df));
    st_metric "Total Revenue" ("£" +:+ total_text);
    st_metric "High Risk Clients" (pretty (count_equal "R" risk));
    st_metric "Avg Strategic Importance" avg_text;
    st_markdown "**Risk Level Distribution:**" ].


Definition demo_lib : PyLib := DecimalLib offline.

Definition demo_inputs : inputs := mkInputs "Demo Data" None "" false.


(** The [Client_Name] cells of the rows whose risk cell is [code]. *)
Definition clients_with_risk (code : string) (df : DataFrame) : list value :=
  match column_index "Client_Name" (columns df),
        column_index "Relationship_Risk_(R/A/G)" (columns df) with
  | Some name, Some risk =>
      cell name <$> filter (fun row => cell risk row = VStr code) (rows df)
  | _, _ => []
  end.


(** A table in which one revenue-share cell is text. *)
Definition text_in_percentage : string :=
"Client_Name,Strategic_Importance_(1-5),Spend_Potential_(1-5),Relationship_Risk_(R/A/G),FY25_Revenue,%_of_Total_Revenue
Arctic Tours,1,2,R,200000,n/a
Blackpool Tower,1,2,A,5000,1%".

Definition table_with_bad_percentage : DataFrame :=
  mkDataFrame required_columns
    [ [VStr "Arctic Tours"; VInt 1; VInt 2; VStr "R"; VInt 200000; VStr "n/a"];
      [VStr "Blackpool Tower"; VInt 1; VInt 2; VStr "A"; VInt 5000; VStr "1%"] ].

(** A table with every required column but FY25_Revenue. *)
Definition table_without_revenue : DataFrame :=
  mkDataFrame
    [ "Client_Name"; "Strategic_Importance_(1-5)"; "Spend_Potential_(1-5)";
      "Relationship_Risk_(R/A/G)"; "%_of_Total_Revenue" ]
    [ [VStr "Arctic Tours"; VInt 1; VInt 2; VStr "R"; VFloat (FNum 28)] ].

(** A store holding one table, and an empty page. *)
Definition world_with (df : DataFrame) : world := mkWorld {[ O := df ]} [].

(** The table the page works on in demo mode. *)
Definition demo_table : DataFrame :=
  Eval vm_compute in
    match run (l ← load_demo_data (L:=demo_lib) ;
               clean_percentage_column (L:=demo_lib) l) with
    | (Ok l, w) => default empty_table (heap w !! l)
    | (Raise _, _) => empty_table
    end.

(** ** Vocabulary of the further properties *)

(** What a loader may do to the world: tables already in the store stay as
    they are, and either a new table is returned and the page is untouched,
    or nothing is returned and one error message with the given prefix is
    added to the page. *)
Definition loader_outcome (prefix : string) (w : world)
    (out : result (option loc) * world) : Prop :=
  (forall l0 df0, heap w !! l0 = Some df0 -> heap out.2 !! l0 = Some df0) /\
  ((exists l', out.1 = Ok (Some l') /\ heap w !! l' = None /\
               is_Some (heap out.2 !! l') /\ page out.2 = page w) \/
   (exists msg, out.1 = Ok None /\
                page out.2 = (page w ++ [st_error (prefix +:+ msg)])%list)).

Section LoadText.
Context `{L : PyLib}.

(** Lines 59-60 and 68-69: parse the text and clean the table. *)
Definition load_text (text : string) : M (option loc) :=
  df ← lift (read_csv text) ;
  l ← alloc df ;
  l' ← clean_percentage_column l ;
  mret (Some l').
End LoadText.

(** The world after more has been shown. *)
Definition shown_on (w : world) (more : list ui) : world :=
  mkWorld (heap w) (page w ++ more)%list.

(** [m] leaves the store alone and only adds to the page, and what it adds
    satisfies [P], whether [m] returns or raises. *)
Definition appends {A} (P : ui -> Prop) (m : M A) : Prop :=
  forall w, exists more,
    (m w).2 = mkWorld (heap w) (page w ++ more)%list /\ Forall P more.

(** Neither a chart nor a download button. *)
Definition no_chart (u : ui) : Prop :=
  match u with
  | st_plotly_chart _ | st_download_button _ _ _ _ => False
  | _ => True
  end.

(** A chart shows the figure of [df]; a download button is there because it
    was asked for, and carries the image of that figure. *)
Definition chart_of (i : inputs) (df : DataFrame) (u : ui) : Prop :=
  match u with
  | st_plotly_chart fig => create_scatter_plot df = Ok fig
  | st_download_button label data file_name mime =>
      download_clicked i = true /\
      exists fig, create_scatter_plot df = Ok fig /\
        u = st_download_button "💾 Save PNG File" (mkImage fig "png" 1200 800 2)
              "client_categorisation_matrix.png" "image/png"
  | _ => True
  end.

(** [w'] keeps every table of [w] as it is, and its page starts with the
    page of [w]. *)
Definition extends (w w' : world) : Prop :=
  (forall l df, heap w !! l = Some df -> heap w' !! l = Some df) /\
  page w `prefix_of` page w'.

(** Whether it returns or raises, [m] only adds tables and page content. *)
Definition grows {A} (m : M A) : Prop := forall w, extends w (m w).2.

(** What [main] shows before it looks at the inputs (lines 279-283). *)
Definition page_head : list ui :=
  [ st_title "📊 Client Categorisation Matrix"; st_markdown "---";
    st_subheader "Data Source" ].

(** What the summary has shown when the revenue total is formatted. *)
Definition summary_start (df : DataFrame) : list ui :=
  [ st_markdown "---"; st_subheader "📊 Data Summary";
    st_metric "Total Clients" (pretty (len df)) ].

(** A file whose revenue column is text. *)
Definition text_in_revenue : string :=
"Client_Name,Strategic_Importance_(1-5),Spend_Potential_(1-5),Relationship_Risk_(R/A/G),FY25_Revenue,%_of_Total_Revenue
Arctic Tours,1,2,R,200k,28%
Blackpool Tower,1,2,A,5k,1%".

Definition table_with_text_revenue : DataFrame :=
  mkDataFrame required_columns
    [ [VStr "Arctic Tours"; VInt 1; VInt 2; VStr "R"; VStr "200k"; VFloat (FNum 28)];
      [VStr "Blackpool Tower"; VInt 1; VInt 2; VStr "A"; VStr "5k"; VFloat (FNum 1)] ].

Definition upload (text : string) : inputs := mkInputs "User Data" (Some text) "" false.

(** The end of [load_data] in user mode: the preview of what was loaded. *)
Definition preview (loaded : option loc) : M (option loc) :=
  match loaded with
  | Some l =>
      df ← deref l ;
      show (st_dataframe "📋 View Loaded Data" df) ;;
      mret loaded
  | None => mret loaded
  end.

(** A table as [read_csv] gives it, with the percentages still text. *)
Definition table_with_percent_signs : DataFrame :=
  mkDataFrame required_columns
    [ [VStr "Arctic Tours"; VInt 1; VInt 2; VStr "R"; VInt 200000; VStr "28%"];
      [VStr "Blackpool Tower"; VInt 1; VInt 2; VStr "A"; VInt 5000; VStr "1%"] ].

(** The cell of a row under a column label. *)
Definition cell_of (df : DataFrame) (c : string) (row : list value) : value :=
  match column_index c (columns df) with
  | Some i => cell i row
  | None => NaN
  end.

(** The marker drawn for a row (lines 100-106). *)
Definition marker_of (df : DataFrame) (row : list value) : point :=
  let risk := cell_of df "Relationship_Risk_(R/A/G)" row in
  mkPoint (cell_of df "Spend_Potential_(1-5)" row)
          (cell_of df "Strategic_Importance_(1-5)" row)
          (cell_of df "%_of_Total_Revenue" row)
          risk (risk_color risk).

(** The row of [customdata] made from a row of the table (lines 271-272). *)
Definition hover_of (df : DataFrame) (row : list value) : list value :=
  (fun c => cell_of df c row) <$> required_columns.

(** [px.scatter(..., color=...)] draws one trace for each risk code that
    occurs, holding the markers of the rows with that code in the order of
    the table. *)
Definition trace (fig : Figure) (code : value) : list point :=
  filter (fun p => pt_risk p = code) (fig_points fig).

(** [%{customdata[k]}] in the hover text of marker number [j] of a trace:
    [update_traces] hands the same array to every trace. *)
Definition hover_data (fig : Figure) (j k : nat) : value :=
  cell k (default [] (fig_customdata fig !! j)).

(** The table of [table_with_percent_signs] with its columns in another
    order and one column more. *)
Definition table_reordered : DataFrame :=
  mkDataFrame
    [ "%_of_Total_Revenue"; "FY25_Revenue"; "Account_Manager"; "Client_Name";
      "Relationship_Risk_(R/A/G)"; "Spend_Potential_(1-5)"; "Strategic_Importance_(1-5)" ]
    [ [VStr "28%"; VInt 200000; VStr "Sam"; VStr "Arctic Tours"; VStr "R"; VInt 2; VInt 1];
      [VStr "1%"; VInt 5000; VStr "Kim"; VStr "Blackpool Tower"; VStr "A"; VInt 2; VInt 1] ].

(** A click on the download button in demo mode. *)
Definition demo_download : inputs := mkInputs "Demo Data" None "" true.

(** A file together with a URL. *)
Definition file_and_url : inputs :=
  mkInputs "User Data" (Some text_in_percentage) "https://example.com/data.csv" true.

(** A store with a table and the same table reordered. *)
Definition world_with_both : world :=
  mkWorld {[ 0%nat := table_with_percent_signs; 1%nat := table_reordered ]} [].

(** * Properties *)

(** ** The chart: layout constants and quadrants *)

Lemma column_index_Some c cols :
  c ∈ cols -> exists i, column_index c cols = Some i.
Proof.
  induction cols as [|c' cols IH]; intros Hin.
  - by apply elem_of_nil in Hin.
  - simpl. destruct (String.eqb_spec c c') as [->|Hne]; [by eexists|].
    apply elem_of_cons in Hin as [?|Hin]; [done|].
    destruct (IH Hin) as [i ->]. by eexists.
Qed.

Lemma column_index_None c cols :
  c ∉ cols -> column_index c cols = None.
Proof.
  induction cols as [|c' cols IH]; intros Hnin; [done|].
  simpl. apply not_elem_of_cons in Hnin as [Hne Hnin].
  destruct (String.eqb_spec c c'); [done|]. by rewrite IH.
Qed.

Lemma column_indices_Some names df :
  Forall (fun c => c ∈ columns df) names ->
  exists idx, column_indices names df = Ok idx /\ length idx = length names.
Proof.
  induction 1 as [|c names Hc _ [idx [IH Hlen]]]; [by exists []|].
  destruct (column_index_Some _ _ Hc) as [i Hi].
  exists (i :: idx). simpl. rewrite Hi, IH. simpl. by rewrite Hlen.
Qed.

Lemma values_of_Some names df :
  Forall (fun c => c ∈ columns df) names ->
  exists cells, values_of names df = Ok cells /\ length cells = len df.
Proof.
  intros H. destruct (column_indices_Some _ _ H) as [idx [Hidx _]].
  unfold values_of. rewrite Hidx. simpl. eexists; split; [done|].
  by rewrite length_fmap.
Qed.

Lemma missing_columns_nil df :
  missing_columns df = [] <-> all_required_present df.
Proof.
  unfold missing_columns, all_required_present. split.
  - intros H. apply Forall_forall. intros c Hc.
    destruct (decide (c ∈ columns df)) as [|Hn]; [done|].
    assert (c ∈ filter (fun col => col ∉ columns df) required_columns) as Hin
      by (apply list_elem_of_filter; done).
    rewrite H in Hin. by apply elem_of_nil in Hin.
  - intros H. induction H as [|c cs Hc _ IH]; [done|].
    rewrite filter_cons. destruct (decide (c ∉ columns df)); [done|]. exact IH.
Qed.


Lemma create_scatter_plot_points df fig :
  create_scatter_plot df = Ok fig ->
  length (fig_points fig) = len df /\
  Forall (fun p => pt_color p = risk_color (pt_risk p)) (fig_points fig).
Proof.
  unfold create_scatter_plot, px_scatter. intros H.
  destruct (values_of _ df) as [cells|] eqn:Hcells in H; [|done]. simpl in H.
  destruct (values_of required_columns df) as [custom|]; [|done]. simpl in H.
  injection H as <-. simpl. split.
  - rewrite length_fmap. unfold values_of in Hcells.
    destruct (column_indices _ df); [|done]. simpl in Hcells.
    injection Hcells as <-. by rewrite length_fmap.
  - apply Forall_fmap, Forall_true. done.
Qed.

Lemma create_scatter_plot_valid df :
  all_required_present df -> exists fig, create_scatter_plot df = Ok fig.
Proof.
  intros H. unfold create_scatter_plot, px_scatter.
  assert (Forall (fun c => c ∈ columns df)
            [ "Spend_Potential_(1-5)"; "Strategic_Importance_(1-5)";
              "%_of_Total_Revenue"; "Relationship_Risk_(R/A/G)" ]) as H4.
  { unfold all_required_present, required_columns in H.
    rewrite !Forall_cons in H. rewrite !Forall_cons. tauto. }
  destruct (values_of_Some _ _ H4) as [cells [-> _]].
  destruct (values_of_Some _ _ H) as [custom [-> _]].
  simpl. by eexists.
Qed.















(** ** Percent signs *)

Lemma append_empty_r (s : string) : s +:+ "" = s.
Proof.
  induction s as [|c s IH]; [done|].
  change (String c (s +:+ "") = String c s). by rewrite IH.
Qed.

Lemma remove_percent_app a b :
  remove_percent (a +:+ b) = remove_percent a +:+ remove_percent b.
Proof.
  induction a as [|c a IH]; [done|].
  simpl. destruct (Ascii.eqb c "%"); simpl; by rewrite IH.
Qed.

Lemma remove_percent_chars s :
  list_ascii_of_string (remove_percent s) =
  filter (fun c => c <> "%"%char) (list_ascii_of_string s).
Proof.
  induction s as [|c s IH]; [done|].
  simpl. rewrite filter_cons.
  destruct (Ascii.eqb_spec c "%") as [->|Hne].
  - by rewrite decide_False by (intros H; by apply H).
  - rewrite decide_True by done. simpl. by rewrite IH.
Qed.

Lemma remove_percent_clean s c :
  c ∈ list_ascii_of_string (remove_percent s) -> c <> "%"%char.
Proof. rewrite remove_percent_chars, list_elem_of_filter. tauto. Qed.

Lemma remove_percent_id s :
  (forall c, c ∈ list_ascii_of_string s -> c <> "%"%char) -> remove_percent s = s.
Proof.
  induction s as [|c s IH]; intros H; [done|].
  simpl. destruct (Ascii.eqb_spec c "%") as [->|Hne].
  - exfalso. apply (H "%"%char); [simpl; left|done].
  - f_equal. apply IH. intros c' Hc'. apply H. simpl. by right.
Qed.

Lemma remove_percent_idempotent s :
  remove_percent (remove_percent s) = remove_percent s.
Proof. apply remove_percent_id, remove_percent_clean. Qed.

Section Normalisation.
Context `{L : PyLib}.

Lemma normalize_cell_suffix s :
  normalize_cell (VStr (s +:+ "%")) = normalize_cell (VStr s).
Proof.
  unfold normalize_cell. simpl. rewrite remove_percent_app. cbn.
  by rewrite append_empty_r.
Qed.



End Normalisation.

(** ** Columns of a table *)

Lemma cell_put_eq i v row : cell i (put i v row) = v.
Proof.
  revert row. induction i as [|i IH]; intros [|x row]; try done.
  - apply (IH []).
  - apply (IH row).
Qed.

Lemma cell_nil j : cell j [] = NaN.
Proof. by destruct j. Qed.

Lemma cell_put_ne i j v row : i <> j -> cell j (put i v row) = cell j row.
Proof.
  revert j row. induction i as [|i IH]; intros [|j] [|x row] Hne; try done.
  - change (cell j (put i v []) = NaN). rewrite IH by congruence. apply cell_nil.
  - change (cell j (put i v row) = cell j row). apply IH. congruence.
Qed.

Lemma put_put i v w row : put i v (put i w row) = put i v row.
Proof.
  revert row. induction i as [|i IH]; intros [|x row]; simpl; try done.
  - by rewrite IH.
  - by rewrite IH.
Qed.

Lemma column_at_length i df : length (column_at i df) = len df.
Proof. unfold column_at, len. by rewrite length_fmap. Qed.

Lemma column_at_set_eq i s df :
  length s = len df -> column_at i (set_column_at i s df) = s.
Proof.
  unfold column_at, set_column_at, len. simpl.
  generalize (rows df). intros rs. revert s.
  induction rs as [|r rs IH]; intros [|v s] Hlen; try done.
  simpl. rewrite cell_put_eq. f_equal. apply IH. simpl in Hlen. lia.
Qed.

Lemma column_at_set_ne i j s df :
  i <> j -> length s = len df -> column_at j (set_column_at i s df) = column_at j df.
Proof.
  intros Hne. unfold column_at, set_column_at, len. simpl.
  generalize (rows df). intros rs. revert s.
  induction rs as [|r rs IH]; intros [|v s] Hlen; try done.
  simpl. rewrite cell_put_ne by done. f_equal. apply IH. simpl in Hlen. lia.
Qed.

Lemma set_column_at_twice i s df :
  set_column_at i s (set_column_at i s df) = set_column_at i s df.
Proof.
  unfold set_column_at. simpl. f_equal.
  generalize (rows df). intros rs. revert s.
  induction rs as [|r rs IH]; intros [|v s]; try done.
  simpl. by rewrite put_put, IH.
Qed.

Lemma set_column_at_len i s df :
  length s = len df -> len (set_column_at i s df) = len df.
Proof.
  unfold set_column_at, len. simpl. intros H.
  rewrite length_zip_with. lia.
Qed.

Lemma column_index_lookup c cols i :
  column_index c cols = Some i -> cols !! i = Some c.
Proof.
  revert i. induction cols as [|c' cols IH]; intros i; [done|].
  simpl. destruct (String.eqb_spec c c') as [->|Hne].
  - by intros [= <-].
  - destruct (column_index c cols) as [j|]; [|done].
    intros [= <-]. simpl. by apply IH.
Qed.

Lemma has_column_true c df :
  has_column c df = true -> exists i, column_index c (columns df) = Some i.
Proof.
  unfold has_column. intros H. apply bool_decide_eq_true in H.
  by apply column_index_Some.
Qed.

Lemma has_column_false c df :
  has_column c df = false -> column_index c (columns df) = None.
Proof.
  unfold has_column. intros H. apply bool_decide_eq_false in H.
  by apply column_index_None.
Qed.

Lemma getitem_set_other c i s df :
  column_index c (columns df) <> Some i -> length s = len df ->
  getitem (set_column_at i s df) c = getitem df c.
Proof.
  intros Hc Hlen. unfold getitem. simpl.
  destruct (column_index c (columns df)) as [j|]; [|done].
  rewrite column_at_set_ne; [done| congruence |done].
Qed.

(** ** [clean_percentage_column] *)

Section Cleaning.
Context `{L : PyLib}.

Lemma clean_series_cons v s :
  clean_series (v :: s) =
  match normalize_cell v with
  | None =>
      Raise (ValueError ("could not convert string to float: '"
                           +:+ remove_percent (str_of_value v) +:+ "'"))
  | Some f => result_bind (clean_series s) (fun fs => Ok (VFloat f :: fs))
  end.
Proof. reflexivity. Qed.

Lemma clean_series_length s s' :
  clean_series s = Ok s' -> length s' = length s.
Proof.
  revert s'. induction s as [|v s IH]; intros s'.
  - by intros [= <-].
  - rewrite clean_series_cons. destruct (normalize_cell v); [|done].
    destruct (clean_series s) as [fs|]; [|done]. simpl.
    intros [= <-]. simpl. by rewrite (IH fs).
Qed.

(** A column is cleaned exactly when every cell reads as a float; the
    first cell that does not raises [ValueError]. *)
Lemma clean_series_Ok s s' :
  clean_series s = Ok s' <->
  Forall2 (fun v v' => exists f, normalize_cell v = Some f /\ v' = VFloat f) s s'.
Proof.
  revert s'. induction s as [|v s IH]; intros s'.
  - split; [by intros [= <-]; constructor|]. by inversion 1.
  - rewrite clean_series_cons. split.
    + destruct (normalize_cell v) as [f|] eqn:Hf; [|done].
      destruct (clean_series s) as [fs|]; [|done]. simpl.
      intros [= <-]. constructor; [by exists f|]. by apply IH.
    + intros H. inversion H as [|v0 v' s0 fs Hv Hrest]; subst.
      destruct Hv as (f & Hf & ->). rewrite Hf.
      apply IH in Hrest. by rewrite Hrest.
Qed.



(** Under the float laws, a cleaned column cleans to itself. *)
Lemma clean_series_fixpoint `{!PyFloatLaws L} s s' :
  clean_series s = Ok s' -> clean_series s' = Ok s'.
Proof.
  rewrite !clean_series_Ok. induction 1 as [|v v' s s' (f & Hf & ->) _ IH].
  - constructor.
  - constructor; [|exact IH]. exists f. split; [|done].
    unfold normalize_cell in *. simpl.
    rewrite remove_percent_id by apply float_repr_no_percent.
    eapply float_repr_roundtrip, Hf.
Qed.

(** What [clean_percentage_column] does to the store: the copy is a new
    object, and only the copy is written. *)
Lemma clean_percentage_column_run l w df :
  heap w !! l = Some df ->
  let l' := fresh (dom (heap w)) in
  clean_percentage_column l w =
  match column_index pct (columns df) with
  | None => (Ok l', mkWorld (<[l':=df]> (heap w)) (page w))
  | Some i =>
      match clean_series (column_at i df) with
      | Ok s' => (Ok l', mkWorld (<[l':=set_column_at i s' df]> (heap w)) (page w))
      | Raise e => (Raise e, mkWorld (<[l':=df]> (heap w)) (page w))
      end
  end.
Proof.
  intros Hl l'.
  unfold clean_percentage_column, DataFrame_copy, setitem, mbind, M_bind, mret, M_ret,
    deref, alloc, store, lift. simpl.
  rewrite Hl. simpl. fold l'. rewrite lookup_insert_eq.
  destruct (has_column "%_of_Total_Revenue" df) eqn:Hcol.
  - apply has_column_true in Hcol as [i Hi]. unfold pct, getitem. rewrite Hi. simpl.
    destruct (clean_series (column_at i df)) as [s'|e]; [|done].
    simpl. rewrite lookup_insert_eq, Hi. simpl. by rewrite insert_insert_eq.
  - apply has_column_false in Hcol. unfold pct. by rewrite Hcol.
Qed.

Lemma fresh_loc_new (h : gmap loc DataFrame) : h !! fresh (dom h) = None.
Proof. apply not_elem_of_dom, is_fresh. Qed.

Lemma fresh_loc_other (h : gmap loc DataFrame) l df :
  h !! l = Some df -> fresh (dom h) <> l.
Proof. intros H Heq. rewrite <- Heq, fresh_loc_new in H. discriminate H. Qed.

End Cleaning.

Section CleaningProperties.
Context `{L : PyLib}.

Lemma clean_percentage_column_Ok l w l' w' :
  clean_percentage_column l w = (Ok l', w') -> exists df, heap w !! l = Some df.
Proof.
  destruct (heap w !! l) as [df|] eqn:Hl; [by eexists|].
  unfold clean_percentage_column, DataFrame_copy, mbind, M_bind, deref. simpl.
  by rewrite Hl.
Qed.

(** C9. [clean_percentage_column] never changes the table it is given, nor
    any other table in the store, nor the page: it returns a new object,
    and in that object every column other than %_of_Total_Revenue (and the
    header and the number of rows) is as in the original. This holds also
    when a cell cannot be read and the call raises. *)
Theorem clean_percentage_column_pure l w df r w' :
  heap w !! l = Some df ->
  clean_percentage_column l w = (r, w') ->
  (forall l0 df0, heap w !! l0 = Some df0 -> heap w' !! l0 = Some df0) /\
  page w' = page w /\
  (forall l', r = Ok l' ->
     heap w !! l' = None /\
     exists df', heap w' !! l' = Some df' /\
       columns df' = columns df /\ len df' = len df /\
       forall c, c <> pct -> getitem df' c = getitem df c).
Proof.
  intros Hl. rewrite (clean_percentage_column_run l w df Hl). cbv zeta.
  assert (forall x l0 df0, heap w !! l0 = Some df0 ->
            <[fresh (dom (heap w)):=x]> (heap w) !! l0 = Some df0) as Hkeep.
  { intros x l0 df0 H0. rewrite lookup_insert_ne; [done|]. by eapply fresh_loc_other. }
  destruct (column_index pct (columns df)) as [i|] eqn:Hi.
  - destruct (clean_series (column_at i df)) as [s'|e] eqn:Hs; intros [= <- <-]; simpl.
    + split; [apply Hkeep|]. split; [done|]. intros l' [= <-].
      split; [apply fresh_loc_new|].
      pose proof (clean_series_length _ _ Hs) as Hlen.
      rewrite column_at_length in Hlen.
      exists (set_column_at i s' df). rewrite lookup_insert_eq.
      split; [done|]. split; [done|]. split; [by apply set_column_at_len|].
      intros c Hc. apply getitem_set_other; [|done].
      intros Hci. apply column_index_lookup in Hci, Hi. congruence.
    + split; [apply Hkeep|]. split; [done|]. intros l' [=].
  - intros [= <- <-]; simpl. split; [apply Hkeep|]. split; [done|].
    intros l' [= <-]. split; [apply fresh_loc_new|].
    exists df. by rewrite lookup_insert_eq.
Qed.

Lemma clean_percentage_column_again `{!PyFloatLaws L} l w l' w' df' :
  clean_percentage_column l w = (Ok l', w') -> heap w' !! l' = Some df' ->
  exists l'' w'',
    clean_percentage_column l' w' = (Ok l'', w'') /\ heap w'' !! l'' = Some df'.
Proof.
  intros Hrun Hl'.
  destruct (clean_percentage_column_Ok _ _ _ _ Hrun) as [df Hl].
  rewrite (clean_percentage_column_run l w df Hl) in Hrun. cbv zeta in Hrun.
  rewrite (clean_percentage_column_run l' w' df' Hl'). cbv zeta.
  destruct (column_index pct (columns df)) as [i|] eqn:Hi.
  - destruct (clean_series (column_at i df)) as [s'|e] eqn:Hs; [|done].
    injection Hrun as <- <-. simpl in Hl'. rewrite lookup_insert_eq in Hl'.
    injection Hl' as <-. simpl. rewrite Hi.
    pose proof (clean_series_length _ _ Hs) as Hlen. rewrite column_at_length in Hlen.
    rewrite column_at_set_eq by done.
    rewrite (clean_series_fixpoint _ _ Hs), set_column_at_twice.
    do 2 eexists. split; [done|]. simpl. by rewrite lookup_insert_eq.
  - injection Hrun as <- <-. simpl in Hl'. rewrite lookup_insert_eq in Hl'.
    injection Hl' as <-. rewrite Hi.
    do 2 eexists. split; [done|]. simpl. by rewrite lookup_insert_eq.
Qed.

(** C4. Normalising a percentage cell gives the same float with or without
    a trailing percent sign; "28%" and "28" both give 28.0; and normalising
    twice is normalising once: for the text (the second removal finds
    nothing to remove), for a column, and for the table that
    [clean_percentage_column] returns. The hypotheses are Python's: printing
    a float and reading it back returns it, the printed text has no percent
    sign, and [float("28")] is 28.0. *)
Theorem percentage_normalisation_idempotent `{!PyFloatLaws L} :
  float_of_str "28" = Some (FNum 28) ->
  (forall s, normalize_cell (VStr (s +:+ "%")) = normalize_cell (VStr s)) /\
  normalize_cell (VStr "28%") = Some (FNum 28) /\
  normalize_cell (VStr "28") = Some (FNum 28) /\
  (forall s, remove_percent (remove_percent s) = remove_percent s) /\
  (forall s s', clean_series s = Ok s' -> clean_series s' = Ok s') /\
  (forall l w l' w' df',
     clean_percentage_column l w = (Ok l', w') -> heap w' !! l' = Some df' ->
     exists l'' w'',
       clean_percentage_column l' w' = (Ok l'', w'') /\ heap w'' !! l'' = Some df').
Proof.
  intros H28. split; [apply normalize_cell_suffix|].
  split; [exact H28|]. split; [exact H28|].
  split; [apply remove_percent_idempotent|].
  split; [apply clean_series_fixpoint|].
  apply clean_percentage_column_again.
Qed.

End CleaningProperties.

(** ** Loading *)

Section Loading.
Context `{L : PyLib}.



End Loading.

(** ** Validation *)

Lemma elem_of_missing_columns df c :
  c ∈ missing_columns df <-> c ∈ required_columns /\ c ∉ columns df.
Proof. unfold missing_columns. rewrite list_elem_of_filter. tauto. Qed.

Lemma validate_data_run l w df :
  heap w !! l = Some df ->
  validate_data l w =
  match missing_columns df with
  | [] => (Ok true, w)
  | _ :: _ => (Ok false, mkWorld (heap w) (page w ++ validation_report df)%list)
  end.
Proof.
  intros Hl. unfold validate_data, mbind, M_bind, mret, M_ret, deref, show.
  rewrite Hl. destruct (missing_columns df) as [|c cs] eqn:Hm; [done|].
  simpl. unfold validation_report. rewrite Hm. by rewrite <- app_assoc.
Qed.

Lemma missing_only_revenue df :
  (forall c, c ∈ required_columns -> c ∈ columns df <-> c <> "FY25_Revenue") ->
  missing_columns df = ["FY25_Revenue"].
Proof.
  intros H. unfold missing_columns.
  assert (forall c, c ∈ required_columns -> c <> "FY25_Revenue" -> ~ (c ∉ columns df)) as Hin.
  { intros c Hc Hne Hnin. apply Hnin. by apply H. }
  assert ("FY25_Revenue" ∉ columns df) as Hout.
  { intros Hc. apply H in Hc; [done|]. unfold required_columns. repeat constructor. }
  unfold required_columns in *.
  rewrite !filter_cons, filter_nil.
  rewrite (decide_True _ _ Hout).
  rewrite !decide_False; [done|..]; apply Hin; first [done | repeat constructor].
Qed.

Section Validation.
Context `{L : PyLib}.

(** C3. Validation succeeds exactly when all six required columns are
    present. Otherwise it fails and the error names every required column
    that is absent, in the order of the required list, not only the first;
    a table lacking exactly FY25_Revenue reports exactly that one name.
    After a failed validation the page only gets the report and the help
    text: no figure is built and no summary is computed. *)
Theorem validation_reports_every_missing_column l w df i :
  heap w !! l = Some df ->
  (forall c, c ∈ missing_columns df <-> c ∈ required_columns /\ c ∉ columns df) /\
  (all_required_present df -> validate_data l w = (Ok true, w)) /\
  (~ all_required_present df ->
     validate_data l w =
       (Ok false, mkWorld (heap w) (page w ++ validation_report df)%list) /\
     display i (Some l) w =
       (Ok tt, mkWorld (heap w) (page w ++ validation_report df ++ validation_help)%list)) /\
  ((forall c, c ∈ required_columns -> c ∈ columns df <-> c <> "FY25_Revenue") ->
     missing_columns df = ["FY25_Revenue"]).
Proof.
  intros Hl. split; [apply elem_of_missing_columns|].
  pose proof (validate_data_run l w df Hl) as Hrun.
  pose proof (missing_columns_nil df) as Hnil.
  split; [|split; [|apply missing_only_revenue]].
  - intros Hall. apply Hnil in Hall. by rewrite Hrun, Hall.
  - intros Hnot. destruct (missing_columns df) as [|c cs] eqn:Hm.
    { exfalso. by apply Hnot, Hnil. }
    split; [exact Hrun|].
    unfold display, mbind, M_bind. rewrite Hrun.
    unfold show, validation_help. simpl. by rewrite <- !app_assoc.
Qed.

End Validation.

(** ** Counting *)

Lemma recorded_bump v w acc :
  recorded v (bump w acc) = if decide (w = v) then S (recorded v acc) else recorded v acc.
Proof.
  induction acc as [|[u n] acc IH]; simpl.
  - by destruct (decide (w = v)).
  - destruct (decide (u = w)) as [->|Huw]; simpl.
    + by destruct (decide (w = v)).
    + rewrite IH. destruct (decide (u = v)) as [->|Huv]; [|done].
      by rewrite decide_False by congruence.
Qed.

Lemma recorded_tally v s acc :
  recorded v (foldl (fun acc v => bump v acc) acc s) = (recorded v acc + count_in v s)%nat.
Proof.
  revert acc. induction s as [|w s IH]; intros acc.
  - unfold count_in. simpl. lia.
  - change (foldl (fun acc v => bump v acc) acc (w :: s))
      with (foldl (fun acc v => bump v acc) (bump w acc) s).
    rewrite IH, recorded_bump. unfold count_in. rewrite filter_cons.
    destruct (decide (w = v)); simpl; lia.
Qed.

Lemma bump_keys v acc :
  (bump v acc).*1 = if decide (v ∈ acc.*1) then acc.*1 else (acc.*1 ++ [v])%list.
Proof.
  induction acc as [|[u n] acc IH].
  - cbn [bump fmap list_fmap fst].
    destruct (decide (v ∈ [])) as [H|_]; [by apply elem_of_nil in H|done].
  - cbn [bump]. destruct (decide (u = v)) as [->|Hne].
    + rewrite !fmap_cons. cbn [fst].
      destruct (decide (v ∈ v :: acc.*1)) as [_|H]; [done|].
      exfalso. apply H, list_elem_of_here.
    + rewrite !fmap_cons, IH. cbn [fst].
      destruct (decide (v ∈ acc.*1)) as [Hin|Hnin];
        destruct (decide (v ∈ u :: acc.*1)) as [Hin'|Hnin']; try done.
      * exfalso. by apply Hnin', list_elem_of_further.
      * exfalso. apply elem_of_cons in Hin' as [->|?]; done.
Qed.

Lemma bump_NoDup v acc : NoDup acc.*1 -> NoDup (bump v acc).*1.
Proof.
  intros H. rewrite bump_keys. destruct (decide (v ∈ acc.*1)); [done|].
  apply NoDup_app. split; [done|]. split.
  - intros x Hx Hx'. apply list_elem_of_singleton in Hx'. by subst.
  - apply NoDup_singleton.
Qed.

Lemma bump_positive v acc :
  Forall (fun e => (0 < e.2)%nat) acc -> Forall (fun e => (0 < e.2)%nat) (bump v acc).
Proof.
  induction 1 as [|[u n] acc Hn Hrest IH]; simpl.
  - constructor; [simpl; lia|constructor].
  - destruct (decide (u = v)); constructor; simpl in *; try lia; done.
Qed.

Lemma tally_invariant s acc :
  NoDup acc.*1 -> Forall (fun e => (0 < e.2)%nat) acc ->
  NoDup (foldl (fun acc v => bump v acc) acc s).*1 /\
  Forall (fun e => (0 < e.2)%nat) (foldl (fun acc v => bump v acc) acc s).
Proof.
  revert acc. induction s as [|v s IH]; intros acc Hnd Hpos; [done|].
  simpl. apply IH; [by apply bump_NoDup|by apply bump_positive].
Qed.

Lemma recorded_elem_of v n acc :
  NoDup acc.*1 -> (v, n) ∈ acc -> recorded v acc = n.
Proof.
  induction acc as [|[u m] acc IH]; intros Hnd Hin.
  - by apply elem_of_nil in Hin.
  - simpl in *. apply NoDup_cons in Hnd as [Hu Hnd].
    apply elem_of_cons in Hin as [[= -> ->]|Hin].
    + by rewrite decide_True.
    + rewrite decide_False; [by apply IH|].
      intros ->. apply Hu. apply list_elem_of_fmap. by exists (v, n).
Qed.

Lemma elem_of_recorded v acc :
  (0 < recorded v acc)%nat -> (v, recorded v acc) ∈ acc.
Proof.
  induction acc as [|[u m] acc IH]; simpl; [lia|].
  destruct (decide (u = v)) as [->|Hne]; intros H.
  - apply list_elem_of_here.
  - apply list_elem_of_further, IH, H.
Qed.

Lemma elem_of_tally s v n :
  (v, n) ∈ tally s <-> (0 < n)%nat /\ n = count_in v s.
Proof.
  unfold tally.
  destruct (tally_invariant s [] (NoDup_nil_2) (Forall_nil_2 _)) as [Hnd Hpos].
  pose proof (recorded_tally v s []) as Hrec. simpl in Hrec.
  split.
  - intros Hin. split.
    + rewrite Forall_forall in Hpos. apply (Hpos _ Hin).
    + rewrite <- Hrec. symmetry. by apply recorded_elem_of.
  - intros [Hn ->]. rewrite <- Hrec. apply elem_of_recorded. by rewrite Hrec.
Qed.

Lemma count_in_dropna v s :
  isna v = false -> count_in v (dropna s) = count_in v s.
Proof.
  intros Hv. unfold count_in, dropna.
  induction s as [|w s IH]; [done|].
  rewrite !filter_cons. destruct (decide (isna w = false)) as [Hw|Hw].
  - rewrite filter_cons. destruct (decide (w = v)); simpl; by rewrite IH.
  - rewrite decide_False; [done|]. intros ->. by apply Hw.
Qed.

Lemma count_in_positive v s : (0 < count_in v s)%nat <-> v ∈ s.
Proof.
  unfold count_in. split.
  - intros H. destruct (filter (fun w => w = v) s) as [|w l] eqn:Hf; [simpl in H; lia|].
    assert (w ∈ filter (fun w => w = v) s) as Hw by (rewrite Hf; apply list_elem_of_here).
    apply list_elem_of_filter in Hw as [-> Hw]. done.
  - intros H. assert (v ∈ filter (fun w => w = v) s) as Hv by (by apply list_elem_of_filter).
    destruct (filter (fun w => w = v) s); [by apply elem_of_nil in Hv|simpl; lia].
Qed.

(** [value_counts] lists each cell that is present and not missing once,
    with its number of occurrences, and nothing else. *)
Lemma value_counts_spec s :
  NoDup (value_counts s).*1 /\
  (forall v n, (v, n) ∈ value_counts s <->
               isna v = false /\ v ∈ s /\ n = count_in v s).
Proof.
  unfold value_counts. split.
  - rewrite merge_sort_Permutation. unfold tally.
    apply (tally_invariant (dropna s) [] NoDup_nil_2 (Forall_nil_2 _)).
  - intros v n. rewrite merge_sort_Permutation, elem_of_tally. split.
    + intros [Hn ->]. apply count_in_positive in Hn as Hin.
      unfold dropna in Hin. apply list_elem_of_filter in Hin as [Hv Hin].
      split; [done|]. split; [done|]. by apply count_in_dropna.
    + intros (Hv & Hin & ->). rewrite count_in_dropna by done.
      split; [by apply count_in_positive|done].
Qed.

(** ** Formatting to one decimal place *)





(** ** The summary *)

Section Summary.
Context `{L : PyLib}.

Lemma bind_show {A} u (k : M A) w :
  (show u ;; k) w = k (mkWorld (heap w) (page w ++ [u])%list).
Proof. reflexivity. Qed.

Lemma bind_run {A B} (m : M A) (k : A -> M B) w :
  (m ≫= k) w =
  match m w with
  | (Ok a, w') => k a w'
  | (Raise e, w') => (Raise e, w')
  end.
Proof. reflexivity. Qed.

Lemma bind_lift_Ok {A B} (a : A) (k : A -> M B) w :
  (lift (Ok a) ≫= k) w = k a w.
Proof. reflexivity. Qed.

Lemma show_lines_run (f : value * nat -> string) entries w :
  foldr (fun entry rest => show (st_write (f entry)) ;; rest) (mret tt) entries w =
  (Ok tt, mkWorld (heap w) (page w ++ (st_write ∘ f <$> entries))%list).
Proof.
  revert w. induction entries as [|e entries IH]; intros w.
  - simpl. unfold mret, M_ret. rewrite app_nil_r. by destruct w.
  - simpl. rewrite bind_show, IH. simpl. by rewrite <- app_assoc.
Qed.

Lemma show_summary_run df w revenue total total_text risk importance avg :
  getitem df "FY25_Revenue" = Ok revenue ->
  series_sum revenue = Ok total ->
  format_comma_0f_value total = Ok total_text ->
  getitem df "Relationship_Risk_(R/A/G)" = Ok risk ->
  getitem df "Strategic_Importance_(1-5)" = Ok importance ->
  series_mean importance = Ok avg ->
  show_summary df w =
  (Ok tt, mkWorld (heap w)
            (page w ++ summary_header df risk total_text (format_1f avg)
               ++ (st_write ∘ risk_line (len df) <$> value_counts risk))%list).
Proof.
  intros Hrev Hsum Hfmt Hrisk Himp Hmean.
  unfold show_summary.
  rewrite !bind_show, Hrev, bind_lift_Ok. cbv beta.
  rewrite Hsum, bind_lift_Ok. cbv beta.
  rewrite Hfmt, bind_lift_Ok. cbv beta.
  rewrite bind_show, Hrisk, bind_lift_Ok. cbv beta zeta.
  rewrite bind_show, Himp, bind_lift_Ok. cbv beta.
  rewrite Hmean, bind_lift_Ok. cbv beta.
  rewrite !bind_show, bind_lift_Ok. cbv beta zeta.
  rewrite show_lines_run. simpl. f_equal. f_equal.
  by rewrite <- !app_assoc.
Qed.


End Summary.

Section SummaryProperties.
Context `{L : PyLib}.

Lemma getitem_empty df c :
  rows df = [] -> c ∈ columns df -> getitem df c = Ok [].
Proof.
  intros Hrows Hc. unfold getitem.
  destruct (column_index_Some _ _ Hc) as [i ->].
  unfold column_at. by rewrite Hrows.
Qed.

Lemma show_chart_Ok i df fig w :
  create_scatter_plot df = Ok fig ->
  exists shown, show_chart i df w = (Ok tt, mkWorld (heap w) (page w ++ shown)%list) /\
                st_plotly_chart fig ∈ shown.
Proof.
  intros Hfig. unfold show_chart.
  rewrite !bind_show, Hfig, bind_lift_Ok. cbv beta. rewrite !bind_show.
  destruct (download_clicked i); unfold show, mret, M_ret; simpl;
    rewrite <- !app_assoc; simpl; eexists; (split; [reflexivity|]);
    repeat first [apply list_elem_of_here | apply list_elem_of_further].
Qed.

(** C7. For a table with the required columns and no rows, building the
    figure succeeds with no points, the summary succeeds, and the mean of
    strategic importance is NaN, shown as "nan": it is not computed as a
    quotient 0/0, nothing raises, and no 0 is shown in its place. No line of
    the risk distribution is written. *)
Theorem empty_table_summary df l i w :
  rows df = [] -> missing_columns df = [] -> heap w !! l = Some df ->
  (exists fig, create_scatter_plot df = Ok fig /\ fig_points fig = []) /\
  (exists importance,
     getitem df "Strategic_Importance_(1-5)" = Ok importance /\
     series_mean importance = Ok FNaN) /\
  show_summary df w =
    (Ok tt, mkWorld (heap w)
       (page w ++
          [ st_markdown "---";
            st_subheader "📊 Data Summary";
            st_metric "Total Clients" "0";
            st_metric "Total Revenue" "£0";
            st_metric "High Risk Clients" "0";
            st_metric "Avg Strategic Importance" "nan";
            st_markdown "**Risk Level Distribution:**" ])%list) /\
  exists w', display i (Some l) w = (Ok tt, w').
Proof.
  intros Hrows Hvalid Hl.
  pose proof Hvalid as Hall. apply missing_columns_nil in Hall.
  assert (forall c, c ∈ required_columns -> getitem df c = Ok []) as Hget.
  { intros c Hc. apply getitem_empty; [done|].
    unfold all_required_present in Hall. rewrite Forall_forall in Hall. by apply Hall. }
  assert (getitem df "FY25_Revenue" = Ok []) as Hrev
    by (apply Hget; unfold required_columns; repeat constructor).
  assert (getitem df "Relationship_Risk_(R/A/G)" = Ok []) as Hrisk
    by (apply Hget; unfold required_columns; repeat constructor).
  assert (getitem df "Strategic_Importance_(1-5)" = Ok []) as Himp
    by (apply Hget; unfold required_columns; repeat constructor).
  assert (len df = O) as Hlen by (unfold len; by rewrite Hrows).
  destruct (create_scatter_plot_valid df Hall) as [fig Hfig].
  assert (show_summary df w =
    (Ok tt, mkWorld (heap w)
       (page w ++
          [ st_markdown "---";
            st_subheader "📊 Data Summary";
            st_metric "Total Clients" "0";
            st_metric "Total Revenue" "£0";
            st_metric "High Risk Clients" "0";
            st_metric "Avg Strategic Importance" "nan";
            st_markdown "**Risk Level Distribution:**" ])%list)) as Hsummary.
  { rewrite (show_summary_run df w [] (VInt 0) "0" [] [] FNaN); try done.
    unfold summary_header. rewrite Hlen. vm_compute. reflexivity. }
  split; [|split; [|split; [exact Hsummary|]]].
  - exists fig. split; [done|].
    destruct (create_scatter_plot_points _ _ Hfig) as [Hpts _].
    rewrite Hlen in Hpts. by destruct (fig_points fig).
  - by exists [].
  - unfold display. rewrite bind_run, (validate_data_run l w df Hl), Hvalid.
    rewrite bind_run. unfold deref. rewrite Hl.
    destruct (show_chart_Ok i df fig w Hfig) as (shown & Hchart & _).
    rewrite bind_run, Hchart.
    rewrite (show_summary_run df _ [] (VInt 0) "0" [] [] FNaN); try done.
    by eexists.
Qed.

End SummaryProperties.

Section Distribution.
Context `{L : PyLib}.

Lemma getitem_length df c s : getitem df c = Ok s -> length s = len df.
Proof.
  unfold getitem. destruct (column_index c (columns df)); [|done].
  intros [= <-]. apply column_at_length.
Qed.




End Distribution.

(** ** The decimal library satisfies the float laws *)

Module DecimalFacts.
Import Decimal.
Local Open Scope N_scope.

Lemma digit_of_digit_char d : d < 10 -> digit_of (digit_char d) = Some d.
Proof.
  intros H.
  assert (d = 0 \/ d = 1 \/ d = 2 \/ d = 3 \/ d = 4 \/ d = 5 \/ d = 6 \/ d = 7 \/
          d = 8 \/ d = 9) as Hd by lia.
  repeat (destruct Hd as [->|Hd]; [reflexivity|]). by subst.
Qed.

Lemma digits_value_from_app acc a b :
  digits_value_from acc (a ++ b) =
  match digits_value_from acc a with
  | Some x => digits_value_from x b
  | None => None
  end.
Proof.
  revert acc. induction a as [|c a IH]; intros acc; [done|].
  simpl. destruct (digit_of c); [apply IH|done].
Qed.

Lemma digits_value_from_fixed k acc n :
  digits_value_from acc (fixed_digits k n) = Some (acc * 10 ^ N.of_nat k + n mod 10 ^ N.of_nat k).
Proof.
  revert acc n. induction k as [|k IH]; intros acc n.
  - simpl. f_equal. rewrite N.mod_1_r. lia.
  - cbn [fixed_digits]. rewrite digits_value_from_app, IH. cbn [digits_value_from].
    rewrite digit_of_digit_char by (apply N.mod_lt; lia).
    f_equal. rewrite Nat2N.inj_succ, N.pow_succ_r'.
    set (p := 10 ^ N.of_nat k).
    assert (p <> 0) as Hp by (unfold p; apply N.pow_nonzero; lia).
    rewrite (N.Div0.mod_mul_r n 10 p).
    lia.
Qed.

Lemma fixed_digits_length k n : length (fixed_digits k n) = k.
Proof.
  revert n. induction k as [|k IH]; intros n; [done|].
  cbn [fixed_digits]. rewrite length_app, IH. simpl. lia.
Qed.

Lemma fixed_digits_are_digits k n : Forall (fun c => is_digit c = true) (fixed_digits k n).
Proof.
  revert n. induction k as [|k IH]; intros n; [constructor|].
  cbn [fixed_digits]. apply Forall_app. split; [apply IH|].
  constructor; [|constructor]. unfold is_digit.
  by rewrite digit_of_digit_char by (apply N.mod_lt; lia).
Qed.

Lemma num_digits_aux_bound fuel n :
  n < 2 ^ N.of_nat fuel -> n < 10 ^ N.of_nat (num_digits_aux fuel n).
Proof.
  revert n. induction fuel as [|fuel IH]; intros n Hn.
  - simpl in *. lia.
  - cbn [num_digits_aux]. destruct (N.ltb_spec n 10) as [Hlt|Hge]; [simpl; lia|].
    rewrite Nat2N.inj_succ, N.pow_succ_r'.
    assert (n / 10 < 10 ^ N.of_nat (num_digits_aux fuel (n / 10))) as Hrec.
    { apply IH. rewrite Nat2N.inj_succ, N.pow_succ_r' in Hn.
      apply N.Div0.div_lt_upper_bound. lia. }
    pose proof (N.div_mod n 10 ltac:(lia)). pose proof (N.mod_lt n 10 ltac:(lia)). lia.
Qed.

Lemma size_nat_bound p : N.pos p < 2 ^ N.of_nat (Pos.size_nat p).
Proof.
  induction p as [p IH|p IH|]; cbn [Pos.size_nat];
    rewrite ?Nat2N.inj_succ, ?N.pow_succ_r'; simpl; lia.
Qed.

Lemma num_digits_bound n : n < 10 ^ N.of_nat (num_digits n).
Proof.
  apply num_digits_aux_bound. destruct n as [|p]; [simpl; lia|].
  apply size_nat_bound.
Qed.

Lemma num_digits_aux_positive fuel n : (0 < num_digits_aux fuel n)%nat.
Proof. destruct fuel; simpl; [lia|]. destruct (n <? 10); lia. Qed.

Lemma show_N_value n : digits_value (show_N n) = Some n.
Proof.
  unfold digits_value, show_N. rewrite digits_value_from_fixed.
  f_equal. rewrite N.mod_small by apply num_digits_bound. lia.
Qed.

Lemma show_N_digits n : Forall (fun c => is_digit c = true) (show_N n).
Proof. apply fixed_digits_are_digits. Qed.

Lemma show_N_nonempty n : exists c l, show_N n = c :: l /\ is_digit c = true.
Proof.
  pose proof (show_N_digits n) as Hd.
  pose proof (fixed_digits_length (num_digits n) n) as Hlen.
  pose proof (num_digits_aux_positive (N.size_nat n) n) as Hpos.
  fold (num_digits n) in Hpos. fold (show_N n) in Hlen.
  destruct (show_N n) as [|c l]; [simpl in Hlen; lia|].
  exists c, l. split; [done|]. by inversion Hd.
Qed.

Lemma digit_facts c :
  is_digit c = true ->
  is_plain c = true /\ Ascii.eqb "." c = false /\ Ascii.eqb c "-" = false /\
  Ascii.eqb c "+" = false /\ to_lower c = c /\
  Ascii.eqb c "n" = false /\ Ascii.eqb c "i" = false.
Proof.
  unfold is_digit, digit_of. intros H.
  destruct (((48 <=? N_of_ascii c) && (N_of_ascii c <=? 57))%N) eqn:Hc; [|done].
  apply andb_true_iff in Hc as [H1%N.leb_le H2%N.leb_le].
  assert (c = digit_char (N_of_ascii c - 48)) as ->.
  { unfold digit_char. replace (48 + (N_of_ascii c - 48)) with (N_of_ascii c) by lia.
    by rewrite ascii_N_embedding. }
  assert (N_of_ascii c - 48 < 10) as Hd by lia.
  set (d := N_of_ascii c - 48) in *.
  assert (d = 0 \/ d = 1 \/ d = 2 \/ d = 3 \/ d = 4 \/ d = 5 \/ d = 6 \/ d = 7 \/
          d = 8 \/ d = 9) as Hcases by lia.
  repeat (destruct Hcases as [->|Hcases]; [by vm_compute|]). subst d. rewrite Hcases. by vm_compute.
Qed.

Lemma lstrip_plain l : Forall (fun c => is_space c = false) l -> lstrip l = l.
Proof. destruct 1 as [|c l Hc _]; [done|]. simpl. by rewrite Hc. Qed.

Lemma strip_plain l : Forall (fun c => is_space c = false) l -> strip l = l.
Proof.
  intros H. unfold strip. rewrite (lstrip_plain l H).
  rewrite lstrip_plain; [apply rev_involutive|].
  by apply Forall_rev.
Qed.

Lemma split_at_none P l :
  Forall (fun c => P c = false) l -> split_at P l = (l, None).
Proof.
  induction 1 as [|c l Hc _ IH]; [done|]. simpl. by rewrite Hc, IH.
Qed.

Lemma split_at_first P a c b :
  Forall (fun c => P c = false) a -> P c = true ->
  split_at P (a ++ c :: b) = (a, Some b).
Proof.
  intros Ha Hc. induction Ha as [|x a Hx _ IH]; simpl; [by rewrite Hc|].
  by rewrite Hx, IH.
Qed.

Lemma parse_sign_digit c l :
  is_digit c = true -> parse_sign (c :: l) = (false, c :: l).
Proof.
  intros H. destruct (digit_facts c H) as (_ & _ & Hm & Hp & _).
  simpl. by rewrite Hm, Hp.
Qed.

Lemma not_spelled c l (word : string) (w : ascii) (rest : string) :
  is_digit c = true -> word = String w rest -> Ascii.eqb c w = false ->
  String.eqb (string_of_list_ascii (to_lower <$> c :: l)) word = false.
Proof.
  intros H -> Hw. destruct (digit_facts c H) as (_ & _ & _ & _ & Hlow & _).
  rewrite fmap_cons, Hlow. simpl. by rewrite Hw.
Qed.

Local Open Scope Z_scope.

Lemma decimal_places_aux_sound fuel r k k' :
  0 < r -> decimal_places_aux fuel r k = Some k' ->
  (k <= k')%nat /\ (r | 10 ^ Z.of_nat (k' - k)).
Proof.
  revert r k. induction fuel as [|fuel IH]; intros r k Hr; cbn [decimal_places_aux].
  - destruct (Z.eqb_spec r 1) as [->|]; [|done]. intros [= <-].
    split; [lia|]. rewrite Nat.sub_diag. apply Z.divide_refl.
  - destruct (Z.eqb_spec r 1) as [->|Hr1].
    { intros [= <-]. split; [lia|]. rewrite Nat.sub_diag. apply Z.divide_refl. }
    destruct (Z.eqb_spec (Z.gcd r 10) 1) as [|Hg]; [done|].
    intros Hrec.
    pose proof (Z.gcd_divide_l r 10) as [x Hx].
    pose proof (Z.gcd_divide_r r 10) as Hg10.
    pose proof (Z.gcd_nonneg r 10) as Hg0.
    assert (0 < Z.gcd r 10) as Hgpos.
    { destruct (Z.eq_dec (Z.gcd r 10) 0) as [H0|]; [|lia].
      apply Z.gcd_eq_0_l in H0. lia. }
    assert (r / Z.gcd r 10 = x) as Hdiv.
    { rewrite Hx at 1. by apply Z.div_mul; lia. }
    apply IH in Hrec as [Hle Hdvd]; [|rewrite Hdiv; nia].
    split; [lia|].
    replace (k' - k)%nat with (S (k' - S k)) by lia.
    rewrite Nat2Z.inj_succ, Z.pow_succ_r by lia.
    rewrite Hdiv in Hdvd. destruct Hg10 as [y Hy]. destruct Hdvd as [z Hz].
    exists (y * z). rewrite Hz, Hy at 1. rewrite Hx at 2. ring.
Qed.

Lemma decimal_places_aux_complete fuel r k j :
  0 < r -> r < 2 ^ Z.of_nat fuel -> (r | 10 ^ Z.of_nat j) ->
  exists k', decimal_places_aux fuel r k = Some k'.
Proof.
  revert r k. induction fuel as [|fuel IH]; intros r k Hr Hlt Hdvd; cbn [decimal_places_aux].
  - simpl in Hlt. lia.
  - destruct (Z.eqb_spec r 1) as [->|Hr1]; [by eexists|].
    pose proof (Z.gcd_divide_l r 10) as [x Hx].
    pose proof (Z.gcd_nonneg r 10) as Hg0.
    destruct (Z.eqb_spec (Z.gcd r 10) 1) as [Hg|Hg].
    + exfalso. apply Hr1.
      assert (Z.gcd r (10 ^ Z.of_nat j) = 1) as Hgj.
      { apply Z.coprime_pow_r; [lia|exact Hg]. }
      assert (r | 1) as H1.
      { apply (Z.gauss r (10 ^ Z.of_nat j) 1); [by rewrite Z.mul_1_r|done]. }
      apply Z.divide_1_r_nonneg in H1; lia.
    + assert (2 <= Z.gcd r 10) as Hg2.
      { destruct (Z.eq_dec (Z.gcd r 10) 0) as [H0|]; [|lia].
        apply Z.gcd_eq_0_l in H0. lia. }
      assert (r / Z.gcd r 10 = x) as Hdiv.
      { rewrite Hx at 1. by apply Z.div_mul; lia. }
      rewrite Nat2Z.inj_succ, Z.pow_succ_r in Hlt by lia.
      apply IH; rewrite Hdiv.
      * nia.
      * nia.
      * apply (Z.divide_trans _ r); [|done]. exists (Z.gcd r 10). lia.
Qed.

Lemma decimal_places_Some d j :
  (Z.pos d | 10 ^ Z.of_nat j) ->
  exists k, decimal_places d = Some k /\ (Z.pos d | 10 ^ Z.of_nat k).
Proof.
  intros Hdvd. unfold decimal_places.
  destruct (decimal_places_aux_complete (Pos.size_nat d) (Z.pos d) O j) as [k Hk];
    [lia| |done|].
  - pose proof (size_nat_bound d) as Hb.
    apply N2Z.inj_lt in Hb. rewrite N2Z.inj_pow in Hb. simpl in Hb.
    by rewrite nat_N_Z in Hb.
  - exists k. split; [done|].
    apply decimal_places_aux_sound in Hk as [_ Hk]; [|lia].
    by rewrite Nat.sub_0_r in Hk.
Qed.

Lemma Qred_Qred q : Qred (Qred q) = Qred q.
Proof. apply Qred_complete, Qred_correct. Qed.

Lemma Qred_den_divide a b : (Z.pos (Qden (Qred (a # b))) | Z.pos b).
Proof.
  unfold Qred.
  pose proof (Z.ggcd_correct_divisors a (Z.pos b)) as Hdiv.
  pose proof (Z.ggcd_gcd a (Z.pos b)) as Hg.
  pose proof (Z.gcd_nonneg a (Z.pos b)) as Hg0.
  destruct (Z.ggcd a (Z.pos b)) as [g [aa bb]]. simpl in *.
  destruct Hdiv as [_ Hb]. subst g.
  assert (0 < bb) as Hbb by nia.
  rewrite Z2Pos.id by done. exists (Z.gcd a (Z.pos b)). lia.
Qed.

Lemma mk_decimal_decimal m e : decimal_float (mk_decimal m e).
Proof.
  unfold mk_decimal, decimal_float. split; [apply Qred_Qred|].
  destruct (Z.leb_spec 0 e) as [He|He].
  - exists O. apply Qred_den_divide.
  - exists (Z.to_nat (- e)).
    pose proof (Qred_den_divide m (Z.to_pos (10 ^ (- e)))) as Hd.
    rewrite Z2Pos.id in Hd by (apply Z.pow_pos_nonneg; lia).
    rewrite Z2Nat.id by lia. exact Hd.
Qed.

Lemma parse_float_decimal l x : parse_float l = Some x -> decimal_float x.
Proof.
  unfold parse_float.
  destruct (parse_sign (strip l)) as [negative body].
  destruct (String.eqb _ "nan"); [by intros [= <-]|].
  destruct (String.eqb _ "inf" || String.eqb _ "infinity"); [by intros [= <-]|].
  destruct (split_at is_e body) as [m e].
  destruct (parse_mantissa m) as [[n k]|]; [|done]. simpl.
  destruct (parse_exponent e) as [z|]; [|done]. simpl.
  intros [= <-]. apply mk_decimal_decimal.
Qed.

(** Reading a sign, digits, a point and digits. *)
Lemma parse_float_printed (negative : bool) (whole : N) frac v :
  Forall (fun c => is_digit c = true) frac ->
  digits_value_from whole frac = Some v ->
  parse_float ((if negative then ["-"%char] else []) ++ show_N whole ++ "."%char :: frac) =
  Some (mk_decimal (signed negative v) (- Z.of_nat (length frac))).
Proof.
  intros Hfrac Hv.
  set (body := (show_N whole ++ "."%char :: frac)%list).
  assert (Forall (fun c => is_plain c = true) body) as Hplain.
  { apply Forall_app. split.
    - eapply Forall_impl; [apply show_N_digits|]. intros c Hc. by apply digit_facts.
    - constructor; [done|]. eapply Forall_impl; [exact Hfrac|].
      intros c Hc. by apply digit_facts. }
  assert (Forall (fun c => is_space c = false) body) as Hspace.
  { eapply Forall_impl; [exact Hplain|]. unfold is_plain. intros c Hc.
    apply andb_true_iff in Hc as [Hc _]. apply andb_true_iff in Hc as [Hc _].
    by apply negb_true_iff. }
  assert (Forall (fun c => is_e c = false) body) as He.
  { eapply Forall_impl; [exact Hplain|]. unfold is_plain. intros c Hc.
    apply andb_true_iff in Hc as [Hc _]. apply andb_true_iff in Hc as [_ Hc].
    by apply negb_true_iff. }
  destruct (show_N_nonempty whole) as (c & rest & Hshow & Hc).
  assert (parse_sign (strip ((if negative then ["-"%char] else []) ++ body)) = (negative, body))
    as Hsign.
  { rewrite strip_plain.
    - destruct negative; [done|]. unfold body. rewrite Hshow. simpl app.
      by apply parse_sign_digit.
    - apply Forall_app. split; [|done]. destruct negative; by repeat constructor. }
  unfold parse_float. rewrite Hsign.
  assert (body = c :: (rest ++ "."%char :: frac)%list) as Hbody
    by (unfold body; by rewrite Hshow).
  destruct (digit_facts c Hc) as (_ & _ & _ & _ & _ & Hn & Hi).
  assert (String.eqb (string_of_list_ascii (to_lower <$> body)) "nan" = false) as H1
    by (rewrite Hbody; by apply (not_spelled c _ "nan" "n" "an")).
  assert (String.eqb (string_of_list_ascii (to_lower <$> body)) "inf" = false) as H2
    by (rewrite Hbody; by apply (not_spelled c _ "inf" "i" "nf")).
  assert (String.eqb (string_of_list_ascii (to_lower <$> body)) "infinity" = false) as H3
    by (rewrite Hbody; by apply (not_spelled c _ "infinity" "i" "nfinity")).
  rewrite H1, H2, H3. cbn [orb]. rewrite (split_at_none _ _ He).
  unfold parse_mantissa, body.
  rewrite (split_at_first (Ascii.eqb ".") (show_N whole) "." frac); [| |done].
  - change (default [] (Some frac)) with frac.
    assert (digits_value (show_N whole ++ frac) = Some v) as Hval.
    { unfold digits_value. rewrite digits_value_from_app.
      fold (digits_value (show_N whole)). by rewrite show_N_value. }
    rewrite Hshow in Hval |- *. rewrite <- app_comm_cons in Hval |- *.
    rewrite Hval. simpl. reflexivity.
  - eapply Forall_impl; [apply show_N_digits|]. intros x Hx. by apply digit_facts.
Qed.

Lemma mk_decimal_eq z k n d :
  (0 < k)%nat -> z * Z.pos d = n * 10 ^ Z.of_nat k -> Qred (n # d) = n # d ->
  mk_decimal z (- Z.of_nat k) = FNum (n # d).
Proof.
  intros Hk Heq Hred. unfold mk_decimal.
  destruct (Z.leb_spec 0 (- Z.of_nat k)); [lia|].
  f_equal. rewrite <- Hred. apply Qred_complete.
  unfold Qeq. simpl. rewrite Z.opp_involutive.
  rewrite Z2Pos.id by (apply Z.pow_pos_nonneg; lia). lia.
Qed.

Lemma scaled_numerator n d k :
  (Z.pos d | 10 ^ Z.of_nat k) ->
  Z.of_N (Z.abs_N n * (10 ^ N.of_nat k / N.pos d)) * Z.pos d = Z.abs n * 10 ^ Z.of_nat k.
Proof.
  intros [y Hy].
  rewrite N2Z.inj_mul, N2Z.inj_abs_N, N2Z.inj_div, N2Z.inj_pow, nat_N_Z.
  change (Z.of_N 10) with 10. change (Z.of_N (N.pos d)) with (Z.pos d).
  rewrite Hy, Z.div_mul by lia. ring.
Qed.

(** What is printed for a float that was read reads back as that float. *)
Lemma print_float_parse x : decimal_float x -> parse_float (print_float x) = Some x.
Proof.
  destruct x as [[n d]| |[|]];
    [|intros _; by vm_compute|intros _; by vm_compute|intros _; by vm_compute].
  intros [Hred [j Hj]]. simpl in Hred, Hj.
  destruct (decimal_places_Some d j Hj) as (k & Hk & Hdk).
  unfold print_float. cbn [Qnum Qden]. rewrite Hk.
  pose proof (scaled_numerator n d k Hdk) as Hscaled.
  set (m := (Z.abs_N n * (10 ^ N.of_nat k / N.pos d))%N) in *.
  assert (10 ^ N.of_nat k <> 0)%N as Hpow by (apply N.pow_nonzero; lia).
  destruct k as [|k'].
  - erewrite parse_float_printed; [|by repeat constructor|reflexivity].
    f_equal. apply (mk_decimal_eq _ 1 n d); [lia| |done].
    change (10 ^ N.of_nat 0)%N with 1%N. rewrite N.div_1_r.
    change (10 ^ Z.of_nat 0) with 1 in Hscaled.
    change (10 ^ Z.of_nat 1) with 10.
    unfold signed. rewrite N2Z.inj_add, N2Z.inj_mul. change (Z.of_N 10) with 10.
    change (Z.of_N (N_of_ascii "0" - 48)) with 0.
    assert (Z.pos d = 1) as Hd1 by (apply Z.divide_1_r_nonneg; [lia|exact Hdk]).
    rewrite Hd1 in *.
    destruct (Z.ltb_spec n 0); lia.
  - erewrite parse_float_printed;
      [|apply fixed_digits_are_digits|apply digits_value_from_fixed].
    rewrite fixed_digits_length. f_equal.
    apply (mk_decimal_eq _ (S k') n d); [lia| |done].
    rewrite N.Div0.mod_mod, N.mul_comm, <- N.div_mod by done.
    unfold signed. destruct (Z.ltb_spec n 0); nia.
Qed.

Lemma print_float_plain x : Forall (fun c => is_plain c = true) (print_float x).
Proof.
  assert (forall n, Forall (fun c => is_plain c = true) (show_N n)) as Hshow.
  { intros n. eapply Forall_impl; [apply show_N_digits|]. intros c Hc. by apply digit_facts. }
  assert (forall k n, Forall (fun c => is_plain c = true) (fixed_digits k n)) as Hfixed.
  { intros k n. eapply Forall_impl; [apply fixed_digits_are_digits|].
    intros c Hc. by apply digit_facts. }
  destruct x as [[n d]| |[|]];
    [|by repeat constructor|by repeat constructor|by repeat constructor].
  unfold print_float. cbn [Qnum Qden].
  destruct (decimal_places d) as [[|k]|];
    (apply Forall_app; split; [destruct (n <? 0); by repeat constructor|]);
    (apply Forall_app; split; [apply Hshow|]);
    (constructor; [done|]); first [apply Hfixed | by repeat constructor].
Qed.

End DecimalFacts.

Lemma DecimalLib_laws web : PyFloatLaws (DecimalLib web).
Proof.
  split.
  - intros s f Hf. simpl in *.
    rewrite list_ascii_of_string_of_list_ascii.
    by eapply DecimalFacts.print_float_parse, DecimalFacts.parse_float_decimal.
  - intros f c Hc. simpl in Hc.
    rewrite list_ascii_of_string_of_list_ascii in Hc.
    pose proof (DecimalFacts.print_float_plain f) as Hplain.
    rewrite Forall_forall in Hplain. specialize (Hplain c Hc).
    unfold Decimal.is_plain in Hplain. intros ->. done.
Qed.

#[global] Existing Instance DecimalLib_laws.

(** ** The embedded demo data and other concrete tables *)

#[local] Existing Instance demo_lib.

(** C2 (amended). For the embedded 13-row demo dataset the summary shows
    13 clients, 3 clients whose relationship risk is 'R' (Arctic Tours,
    Grange Hotel Group and Iceland Tours), and a total FY25 revenue of
    709,000. *)
Theorem demo_summary_statistics :
  exists l w df risk revenue,
    run (l ← load_demo_data ; clean_percentage_column l) = (Ok l, w) /\
    heap w !! l = Some df /\
    len df = 13%nat /\
    getitem df "Relationship_Risk_(R/A/G)" = Ok risk /\
    count_equal "R" risk = 3%nat /\
    clients_with_risk "R" df =
      [VStr "Arctic Tours"; VStr "Grange Hotel Group"; VStr "Iceland Tours"] /\
    getitem df "FY25_Revenue" = Ok revenue /\
    series_sum revenue = Ok (VInt 709000) /\
    (let shown := page (run (main demo_inputs)).2 in
     st_metric "Total Clients" "13" ∈ shown /\
     st_metric "High Risk Clients" "3" ∈ shown /\
     st_metric "Total Revenue" "£709,000" ∈ shown).
Proof.
  do 5 eexists.
  split; [vm_compute; reflexivity|].
  split; [vm_compute; reflexivity|].
  split; [vm_compute; reflexivity|].
  split; [vm_compute; reflexivity|].
  split; [vm_compute; reflexivity|].
  split; [vm_compute; reflexivity|].
  split; [vm_compute; reflexivity|].
  split; [vm_compute; reflexivity|].
  cbv zeta. repeat split; apply list_elem_of_In; vm_compute; tauto.
Qed.

(** C2 as stated fails on the embedded data: the 'R' rows are three, not
    four, and the FY25_Revenue column adds up to 709,000, not 708,500. *)
Lemma demo_summary_counterexample :
  exists df risk revenue,
    read_csv DEMO_DATA = Ok df /\
    len df = 13%nat /\
    getitem df "Relationship_Risk_(R/A/G)" = Ok risk /\
    count_equal "R" risk <> 4%nat /\
    getitem df "FY25_Revenue" = Ok revenue /\
    series_sum revenue <> Ok (VInt 708500).
Proof.
  do 3 eexists.
  split; [vm_compute; reflexivity|].
  split; [vm_compute; reflexivity|].
  split; [vm_compute; reflexivity|].
  split; [vm_compute; discriminate|].
  split; [vm_compute; reflexivity|].
  vm_compute. discriminate.
Qed.


(** ** The theorems at concrete tables *)

(** C3 at a table that lacks exactly FY25_Revenue. *)
Lemma validation_reports_every_missing_column_witness :
  missing_columns table_without_revenue = ["FY25_Revenue"] /\
  validate_data O (world_with table_without_revenue) =
    (Ok false,
     mkWorld (heap (world_with table_without_revenue))
       [ st_error "Missing required columns: FY25_Revenue";
         st_info ("Required columns: " +:+ join ", " required_columns) ]).
Proof.
  destruct (validation_reports_every_missing_column (L:=demo_lib)
              O (world_with table_without_revenue) table_without_revenue demo_inputs)
    as (_ & _ & Hfail & Hone).
  - vm_compute. reflexivity.
  - split.
    + apply Hone. intros c Hc. unfold required_columns in Hc.
      rewrite !elem_of_cons, elem_of_nil in Hc.
      destruct Hc as [->|[->|[->|[->|[->|[->|[]]]]]]]; split; intros H;
        first [ discriminate
              | exfalso; by apply H
              | exfalso; apply list_elem_of_In in H; vm_compute in H;
                repeat (destruct H as [H|H]; [discriminate H|]); exact H
              | apply list_elem_of_In; vm_compute; tauto ].
    + destruct Hfail as [Hfail _]; [|exact Hfail].
      unfold all_required_present. rewrite Forall_forall. intros Hall.
      specialize (Hall "FY25_Revenue").
      assert ("FY25_Revenue" ∈ columns table_without_revenue) as Hin.
      { apply Hall. unfold required_columns. repeat constructor. }
      apply list_elem_of_In in Hin. vm_compute in Hin.
      repeat (destruct Hin as [Hin|Hin]; [discriminate Hin|]). exact Hin.
Defined.

(** C4 for the decimal library. *)
Lemma percentage_normalisation_idempotent_witness :
  normalize_cell (VStr "28%") = Some (FNum 28) /\
  normalize_cell (VStr "28") = Some (FNum 28) /\
  clean_series [VStr "28%"; VInt 1] = Ok [VFloat (FNum 28); VFloat (FNum 1)] /\
  clean_series [VFloat (FNum 28); VFloat (FNum 1)] = Ok [VFloat (FNum 28); VFloat (FNum 1)].
Proof.
  destruct (percentage_normalisation_idempotent (L:=demo_lib)) as (_ & H1 & H2 & _ & H3 & _).
  - vm_compute. reflexivity.
  - split; [exact H1|]. split; [exact H2|].
    assert (clean_series [VStr "28%"; VInt 1] = Ok [VFloat (FNum 28); VFloat (FNum 1)]) as Hc
      by (vm_compute; reflexivity).
    split; [exact Hc|]. exact (H3 _ _ Hc).
Defined.



(** C7 at the empty table with the six required columns. *)
Lemma empty_table_summary_witness :
  (exists fig, create_scatter_plot empty_table = Ok fig /\ fig_points fig = []) /\
  st_metric "Avg Strategic Importance" "nan"
    ∈ page (show_summary empty_table (world_with empty_table)).2.
Proof.
  destruct (empty_table_summary (L:=demo_lib) empty_table O demo_inputs (world_with empty_table))
    as (Hfig & _ & Hsummary & _).
  - reflexivity.
  - vm_compute. reflexivity.
  - vm_compute. reflexivity.
  - split; [exact Hfig|]. rewrite Hsummary. cbn [snd page].
    repeat first [apply list_elem_of_here | apply list_elem_of_further].
Defined.

(** C9 at a table whose cleaning raises and at one whose cleaning succeeds. *)
Lemma clean_percentage_column_pure_witness :
  heap (clean_percentage_column O (world_with table_with_bad_percentage)).2 !! O =
    Some table_with_bad_percentage /\
  heap (clean_percentage_column O (world_with table_without_revenue)).2 !! O =
    Some table_without_revenue.
Proof.
  split.
  - destruct (clean_percentage_column (L:=demo_lib) O (world_with table_with_bad_percentage))
      as [r w'] eqn:Hrun.
    refine (proj1 (clean_percentage_column_pure (L:=demo_lib) O
              (world_with table_with_bad_percentage) table_with_bad_percentage r w' _ Hrun)
              O table_with_bad_percentage _); vm_compute; reflexivity.
  - destruct (clean_percentage_column (L:=demo_lib) O (world_with table_without_revenue))
      as [r w'] eqn:Hrun.
    refine (proj1 (clean_percentage_column_pure (L:=demo_lib) O
              (world_with table_without_revenue) table_without_revenue r w' _ Hrun)
              O table_without_revenue _); vm_compute; reflexivity.
Defined.


(** * Further properties of the script *)

#[local] Remove Hints demo_lib : typeclass_instances.

(** ** The loaders *)

Lemma append_inj_l (p a b : string) : p +:+ a = p +:+ b -> a = b.
Proof.
  induction p as [|c p IH]; [done|].
  change (String c (p +:+ a) = String c (p +:+ b) -> a = b).
  intros [= H]. by apply IH.
Qed.

Section Loaders.
Context `{L : PyLib}.

Lemma load_text_run text w :
  load_text text w =
  match read_csv text with
  | Raise e => (Raise e, w)
  | Ok df =>
      let l := fresh (dom (heap w)) in
      match clean_percentage_column l (mkWorld (<[l:=df]> (heap w)) (page w)) with
      | (Ok l', w') => (Ok (Some l'), w')
      | (Raise e, w') => (Raise e, w')
      end
  end.
Proof.
  unfold load_text. rewrite bind_run. unfold lift.
  destruct (read_csv text) as [df|e]; [|done].
  rewrite bind_run. unfold alloc. cbv zeta. rewrite bind_run.
  by destruct (clean_percentage_column _ _) as [[l'|e] w'].
Qed.

(** The two ways [load_text] ends: a new table and an untouched page, or an
    exception, an untouched page and all earlier tables in place. *)
Lemma load_text_outcome text w r w' :
  load_text text w = (r, w') ->
  (forall l0 df0, heap w !! l0 = Some df0 -> heap w' !! l0 = Some df0) /\
  page w' = page w /\
  match r with
  | Ok (Some l') => heap w !! l' = None /\ is_Some (heap w' !! l')
  | Ok None => False
  | Raise _ => True
  end.
Proof.
  rewrite load_text_run.
  destruct (read_csv text) as [df|e]; [|by intros [= <- <-]].
  cbv zeta. set (l := fresh (dom (heap w))).
  set (w1 := mkWorld (<[l:=df]> (heap w)) (page w)).
  assert (heap w1 !! l = Some df) as Hl by apply lookup_insert_eq.
  assert (forall l0 df0, heap w !! l0 = Some df0 -> heap w1 !! l0 = Some df0) as Hkeep.
  { intros l0 df0 H0. simpl. rewrite lookup_insert_ne; [done|]. by eapply fresh_loc_other. }
  assert (forall x l0 df0, heap w !! l0 = Some df0 ->
            <[fresh (dom (heap w1)):=x]> (heap w1) !! l0 = Some df0) as Hkeep'.
  { intros x l0 df0 H0. rewrite lookup_insert_ne; [by apply Hkeep|].
    eapply fresh_loc_other, Hkeep, H0. }
  assert (heap w !! fresh (dom (heap w1)) = None) as Hnew.
  { destruct (heap w !! fresh (dom (heap w1))) as [df0|] eqn:H0; [|done].
    apply Hkeep in H0. by rewrite fresh_loc_new in H0. }
  rewrite (clean_percentage_column_run l w1 df Hl). cbv zeta.
  destruct (column_index pct (columns df)) as [i|].
  - destruct (clean_series (column_at i df)) as [s'|e]; intros [= <- <-]; simpl.
    + split; [apply Hkeep'|]. split; [done|]. split; [done|].
      rewrite lookup_insert_eq. by eexists.
    + split; [apply Hkeep'|]. done.
  - intros [= <- <-]; simpl. split; [apply Hkeep'|]. split; [done|]. split; [done|].
    rewrite lookup_insert_eq. by eexists.
Qed.

Lemma load_data_from_file_try text w :
  load_data_from_file text w =
  match load_text text w with
  | (Ok r, w') => (Ok r, w')
  | (Raise e, w') =>
      (Ok None, mkWorld (heap w')
                  (page w' ++ [st_error ("Error loading data from file: " +:+ exn_message e)])%list)
  end.
Proof.
  unfold load_data_from_file, try_except. fold (load_text text).
  by destruct (load_text text w) as [[r|e] w'].
Qed.

Lemma load_data_from_url_try url w :
  load_data_from_url url w =
  match requests_get url with
  | Raise e =>
      (Ok None, mkWorld (heap w)
                  (page w ++ [st_error ("Error loading data from URL: " +:+ exn_message e)])%list)
  | Ok text =>
      match load_text text w with
      | (Ok r, w') => (Ok r, w')
      | (Raise e, w') =>
          (Ok None, mkWorld (heap w')
                      (page w' ++ [st_error ("Error loading data from URL: " +:+ exn_message e)])%list)
      end
  end.
Proof.
  unfold load_data_from_url, try_except. rewrite bind_run.
  change (lift (requests_get url) w) with (requests_get url, w).
  destruct (requests_get url) as [text|e]; [|done].
  fold (load_text text). by destruct (load_text text w) as [[r|e] w'].
Qed.

Lemma try_load_text_outcome prefix text w :
  loader_outcome prefix w
    match load_text text w with
    | (Ok r, w') => (Ok r, w')
    | (Raise e, w') =>
        (Ok None, mkWorld (heap w') (page w' ++ [st_error (prefix +:+ exn_message e)])%list)
    end.
Proof.
  destruct (load_text text w) as [r w'] eqn:Hrun.
  destruct (load_text_outcome text w r w' Hrun) as (Hkeep & Hpage & Hr).
  destruct r as [[l'|]|e]; simpl in Hr; [|done|]; split; simpl; try done.
  - left. exists l'. by destruct Hr.
  - right. exists (exn_message e). by rewrite Hpage.
Qed.

(** X1. Neither loader ever raises, whatever the file holds and whatever
    the fetch does: every exception of the fetch, of [read_csv] and of the
    percentage conversion ends in one error message and no table; a
    successful load returns a new table and leaves the page alone. In both
    cases the tables already in the store are untouched. *)
Theorem loaders_never_raise url text w :
  loader_outcome "Error loading data from URL: " w (load_data_from_url url w) /\
  loader_outcome "Error loading data from file: " w (load_data_from_file text w).
Proof.
  split.
  - rewrite load_data_from_url_try.
    destruct (requests_get url) as [fetched|e]; [apply try_load_text_outcome|].
    split; [done|]. right. by exists (exn_message e).
  - rewrite load_data_from_file_try. apply try_load_text_outcome.
Qed.

(** X2. Loading from a URL is fetching the text and loading it as a file:
    when the fetch succeeds, both loaders return the same table and leave
    the same store, and when the text cannot be loaded both show the same
    exception text, each behind its own prefix. When the fetch fails, its
    message is shown, nothing is parsed and the store is unchanged. *)
Theorem url_load_is_fetch_then_file_load url w :
  match requests_get url with
  | Raise e =>
      load_data_from_url url w =
      (Ok None, mkWorld (heap w)
                  (page w ++ [st_error ("Error loading data from URL: " +:+ exn_message e)])%list)
  | Ok text =>
      (forall l' w', load_data_from_file text w = (Ok (Some l'), w') <->
                     load_data_from_url url w = (Ok (Some l'), w')) /\
      (forall msg,
         (exists w', load_data_from_file text w = (Ok None, w') /\
            page w' = (page w ++ [st_error ("Error loading data from file: " +:+ msg)])%list) <->
         (exists w', load_data_from_url url w = (Ok None, w') /\
            page w' = (page w ++ [st_error ("Error loading data from URL: " +:+ msg)])%list)) /\
      heap (load_data_from_file text w).2 = heap (load_data_from_url url w).2
  end.
Proof.
  rewrite load_data_from_url_try.
  destruct (requests_get url) as [text|e]; [|done].
  rewrite load_data_from_file_try.
  destruct (load_text text w) as [r w'] eqn:Hrun.
  destruct (load_text_outcome text w r w' Hrun) as (_ & Hpage & Hr).
  destruct r as [[l'|]|e]; simpl in Hr; [|done|].
  - split; [done|]. split; [|done].
    intros msg. split; intros (w'' & [=] & _).
  - split; [split; intros [=]|]. split; [|done].
    intros msg. rewrite Hpage.
    split; intros (w'' & [= <-] & Hmsg); simpl in Hmsg;
      apply app_inv_head in Hmsg; injection Hmsg as Hmsg;
      apply append_inj_l in Hmsg; subst msg; by eexists.
Qed.

End Loaders.

(** ** Where the table comes from *)

Section Sources.
Context `{L : PyLib}.

Lemma load_data_user i w :
  data_mode i <> "Demo Data" ->
  load_data i w =
  (show (st_info "Upload your own CSV file or provide a URL to load custom data.") ;;
   show (st_markdown "**Option 1: Upload CSV File**") ;;
   from_file ← match uploaded_file i with
               | Some text => load_data_from_file text
               | None => mret None
               end ;
   show (st_markdown "**Option 2: CSV URL**") ;;
   loaded ← (if negb (String.eqb (csv_url i) "") && negb (bool_decide (is_Some (uploaded_file i)))
             then load_data_from_url (csv_url i)
             else mret from_file) ;
   match loaded with
   | Some l =>
       df ← deref l ;
       show (st_dataframe "📋 View Loaded Data" df) ;;
       mret loaded
   | None => mret loaded
   end) w.
Proof. intros Hi%String.eqb_neq. unfold load_data. by rewrite Hi. Qed.

(** X3. The demo mode reads none of the other inputs; in user mode an
    uploaded file takes precedence, so that the URL is neither used nor
    fetched, and what is loaded is what the file loader returns; with no
    file and no URL nothing is loaded and no error is shown. The download
    button never influences what is loaded. *)
Theorem load_data_source_precedence i j w :
  (data_mode i = "Demo Data" -> data_mode j = "Demo Data" ->
   load_data i w = load_data j w) /\
  (data_mode i <> "Demo Data" -> data_mode j <> "Demo Data" ->
   forall text, uploaded_file i = Some text -> uploaded_file j = Some text ->
   load_data i w = load_data j w /\
   (load_data i w).1 =
   (load_data_from_file text
      (shown_on w
         [ st_info "Upload your own CSV file or provide a URL to load custom data.";
           st_markdown "**Option 1: Upload CSV File**" ])).1) /\
  (data_mode i <> "Demo Data" -> uploaded_file i = None -> csv_url i = "" ->
   load_data i w =
   (Ok None,
    shown_on w
      [ st_info "Upload your own CSV file or provide a URL to load custom data.";
        st_markdown "**Option 1: Upload CSV File**";
        st_markdown "**Option 2: CSV URL**" ])).
Proof.
  split; [|split].
  - intros Hi Hj. unfold load_data. by rewrite Hi, Hj.
  - intros Hi Hj text Hfi Hfj.
    rewrite (load_data_user i w Hi), (load_data_user j w Hj), Hfi, Hfj.
    rewrite !andb_false_r. split; [done|].
    rewrite !bind_show, bind_run.
    match goal with |- context [load_data_from_file text ?w1] =>
      replace w1 with (shown_on w
         [ st_info "Upload your own CSV file or provide a URL to load custom data.";
           st_markdown "**Option 1: Upload CSV File**" ])
        by (unfold shown_on; simpl; by rewrite <- app_assoc) end.
    set (w1 := shown_on w _).
    rewrite load_data_from_file_try.
    destruct (load_text text w1) as [r w'] eqn:Hrun.
    destruct (load_text_outcome text w1 r w' Hrun) as (_ & _ & Hr).
    destruct r as [[l|]|e]; simpl in Hr; [|done|].
    + destruct Hr as [_ [df Hdf]].
      rewrite bind_show, bind_run. unfold mret at 1, M_ret at 1.
      rewrite bind_run. unfold deref. cbn [heap]. by rewrite Hdf.
    + by rewrite bind_show, bind_run.
  - intros Hi Hf Hu.
    rewrite (load_data_user i w Hi), Hf, Hu. simpl.
    rewrite !bind_show. unfold mret, M_ret. rewrite bind_run.
    rewrite bind_show, bind_run. unfold shown_on. simpl. by rewrite <- !app_assoc.
Qed.
End Sources.

(** ** What a run adds to the page *)

Lemma world_eta w : w = mkWorld (heap w) (page w ++ [])%list.
Proof. destruct w. simpl. by rewrite app_nil_r. Qed.

Lemma appends_ret {A} P (a : A) : appends P (mret a).
Proof. intros w. exists []. split; [apply world_eta|constructor]. Qed.

Lemma appends_lift {A} P (r : result A) : appends P (lift r).
Proof. intros w. exists []. split; [apply world_eta|constructor]. Qed.

Lemma appends_deref P l : appends P (deref l).
Proof.
  intros w. exists []. split; [|constructor].
  unfold deref. destruct (heap w !! l); apply world_eta.
Qed.

Lemma appends_show (P : ui -> Prop) u : P u -> appends P (show u).
Proof. intros Hu w. exists [u]. split; [done|by repeat constructor]. Qed.

Lemma appends_bind {A B} P (m : M A) (k : A -> M B) :
  appends P m -> (forall a, appends P (k a)) -> appends P (m ≫= k).
Proof.
  intros Hm Hk w. destruct (Hm w) as (more & Hw & HP). rewrite bind_run.
  destruct (m w) as [[a|e] w']; simpl in Hw; subst w'.
  - destruct (Hk a (mkWorld (heap w) (page w ++ more)%list)) as (more' & Hw' & HP').
    exists (more ++ more')%list. rewrite Hw'. simpl. rewrite app_assoc.
    split; [done|by apply Forall_app].
  - by exists more.
Qed.

Lemma appends_mono {A} (P Q : ui -> Prop) (m : M A) :
  (forall u, P u -> Q u) -> appends P m -> appends Q m.
Proof.
  intros HPQ Hm w. destruct (Hm w) as (more & Hw & HP).
  exists more. split; [done|]. eapply Forall_impl; eauto.
Qed.

Lemma appends_lines {A} (P : ui -> Prop) (f : A -> ui) (entries : list A) :
  (forall entry, P (f entry)) ->
  appends P (foldr (fun entry rest => show (f entry) ;; rest) (mret tt) entries).
Proof.
  intros Hf. induction entries as [|entry entries IH]; simpl.
  - apply appends_ret.
  - apply appends_bind; [by apply appends_show|by intros _].
Qed.

Lemma appends_lift_bind {A B} P (r : result A) (k : A -> M B) :
  (forall a, r = Ok a -> appends P (k a)) -> appends P (lift r ≫= k).
Proof.
  intros Hk w. rewrite bind_run. unfold lift. destruct r as [a|e].
  - by apply Hk.
  - exists []. split; [apply world_eta|constructor].
Qed.

Ltac appends_steps :=
  repeat first
    [ apply appends_ret
    | apply appends_lift
    | apply appends_deref
    | apply appends_show; try exact I
    | apply appends_lines; intros; try exact I
    | apply appends_bind; [|intros ?] ].

Section Frames.
Context `{L : PyLib}.

Lemma validate_data_appends l : appends no_chart (validate_data l).
Proof.
  unfold validate_data. apply appends_bind; [apply appends_deref|intros df].
  destruct (missing_columns df); appends_steps.
Qed.

Lemma show_summary_appends df : appends no_chart (show_summary df).
Proof. unfold show_summary. appends_steps. Qed.

Lemma show_chart_appends i df : appends (chart_of i df) (show_chart i df).
Proof.
  unfold show_chart. apply appends_bind; [by apply appends_show|intros _].
  apply appends_bind; [by apply appends_show|intros _].
  apply appends_lift_bind. intros fig Hfig.
  apply appends_bind; [by apply appends_show|intros _].
  apply appends_bind; [by apply appends_show|intros _].
  destruct (download_clicked i) eqn:Hclick; [|apply appends_ret].
  apply appends_show. simpl. eauto.
Qed.

(** What [display] adds to the page, by the table it is given. *)
Lemma display_appends i loaded w :
  exists more,
    (display i loaded w).2 = mkWorld (heap w) (page w ++ more)%list /\
    (Forall no_chart more \/
     exists l df, loaded = Some l /\ heap w !! l = Some df /\
                  all_required_present df /\ Forall (chart_of i df) more).
Proof.
  destruct loaded as [l|]; simpl.
  - destruct (heap w !! l) as [df|] eqn:Hl.
    + rewrite bind_run, (validate_data_run l w df Hl).
      destruct (missing_columns df) as [|c cs] eqn:Hmiss.
      * assert (Hdisp : appends (chart_of i df) (show_chart i df ;; show_summary df)).
        { apply appends_bind; [apply show_chart_appends|intros _].
          eapply appends_mono; [|apply show_summary_appends]. by intros []. }
        destruct (Hdisp w) as (more & Hw & Hmore).
        exists more. rewrite bind_run. unfold deref. rewrite Hl. split; [done|].
        right. exists l, df. by rewrite <- missing_columns_nil.
      * eexists. rewrite !bind_show. split; [|left].
        -- unfold mret, M_ret. simpl. by rewrite <- !app_assoc.
        -- unfold validation_report. rewrite Hmiss. by repeat constructor.
    + exists []. rewrite bind_run. unfold validate_data. rewrite bind_run.
      unfold deref. rewrite Hl. split; [apply world_eta|by left].
  - destruct (String.eqb (data_mode i) "User Data").
    + eexists. rewrite !bind_show. split; [|left].
      * simpl. by rewrite <- !app_assoc.
      * by repeat constructor.
    + exists []. split; [apply world_eta|by left].
Qed.
(** What a table with all the required columns gets: the chart first. *)
Lemma display_valid_run i l df fig w :
  heap w !! l = Some df -> all_required_present df ->
  create_scatter_plot df = Ok fig ->
  exists more,
    page (display i (Some l) w).2 =
    (page w ++
       [ st_markdown "---"; st_subheader "📈 Visualization"; st_plotly_chart fig;
         st_markdown "---" ] ++
       (if download_clicked i
        then [ st_download_button "💾 Save PNG File" (mkImage fig "png" 1200 800 2)
                 "client_categorisation_matrix.png" "image/png" ]
        else []) ++ more)%list.
Proof.
  intros Hl Hall%missing_columns_nil Hfig. simpl.
  rewrite bind_run, (validate_data_run l w df Hl), Hall, bind_run.
  unfold deref at 1. rewrite Hl. rewrite bind_run.
  unfold show_chart. rewrite !bind_show, Hfig, bind_lift_Ok, !bind_show.
  destruct (download_clicked i).
  - unfold show at 1. cbn [heap page].
    match goal with |- context [show_summary df ?w1] =>
      destruct (show_summary_appends df w1) as (more & Hw & _) end.
    exists more. rewrite Hw. simpl. by rewrite <- !app_assoc.
  - unfold mret at 1, M_ret at 1.
    match goal with |- context [show_summary df ?w1] =>
      destruct (show_summary_appends df w1) as (more & Hw & _) end.
    exists more. rewrite Hw. simpl. by rewrite <- !app_assoc.
Qed.

(** X4. [display] never touches the store, and a chart is on the page
    after it exactly when the table it was given has every required column
    and the chart shows the figure made from that table: neither a missing
    table nor one that fails validation is ever drawn. *)
Theorem chart_only_for_validated_table i loaded w fig :
  st_plotly_chart fig ∉ page w ->
  heap (display i loaded w).2 = heap w /\
  (st_plotly_chart fig ∈ page (display i loaded w).2 <->
   exists l df, loaded = Some l /\ heap w !! l = Some df /\
                all_required_present df /\ create_scatter_plot df = Ok fig).
Proof.
  intros Hnew. destruct (display_appends i loaded w) as (more & Hw & Hmore).
  split; [by rewrite Hw|]. split.
  - rewrite Hw. cbn [page]. rewrite elem_of_app. intros [Hin|Hin]; [done|].
    destruct Hmore as [Hno|(l & df & -> & Hl & Hall & Hmore)].
    + rewrite Forall_forall in Hno. destruct (Hno _ Hin).
    + rewrite Forall_forall in Hmore. exists l, df. repeat split; try done.
      exact (Hmore _ Hin).
  - intros (l & df & -> & Hl & Hall & Hfig).
    destruct (display_valid_run i l df fig w Hl Hall Hfig) as (rest & ->).
    rewrite !elem_of_app. right. left. repeat constructor.
Qed.

(** X5. A download button is on the page only if the button was clicked
    and the table has every required column; it then offers the PNG image,
    1200 by 800 at scale 2, of the figure made from that table, under the
    name client_categorisation_matrix.png. *)
Theorem download_button_only_on_click i loaded w label data file_name mime :
  st_download_button label data file_name mime ∈ page (display i loaded w).2 ->
  st_download_button label data file_name mime ∉ page w ->
  download_clicked i = true /\
  exists l df fig,
    loaded = Some l /\ heap w !! l = Some df /\ all_required_present df /\
    create_scatter_plot df = Ok fig /\
    st_plotly_chart fig ∈ page (display i loaded w).2 /\
    label = "💾 Save PNG File" /\ data = mkImage fig "png" 1200 800 2 /\
    file_name = "client_categorisation_matrix.png" /\ mime = "image/png".
Proof.
  intros Hin Hnew. destruct (display_appends i loaded w) as (more & Hw & Hmore).
  rewrite Hw in Hin. cbn [page snd] in Hin. apply elem_of_app in Hin as [Hin|Hin]; [done|].
  destruct Hmore as [Hno|(l & df & -> & Hl & Hall & Hmore)].
  - rewrite Forall_forall in Hno. destruct (Hno _ Hin).
  - rewrite Forall_forall in Hmore.
    destruct (Hmore _ Hin) as (Hclick & fig & Hfig & [= -> -> -> ->]).
    split; [done|]. exists l, df, fig. repeat split; try done.
    destruct (display_valid_run i l df fig w Hl Hall Hfig) as (rest & ->).
    rewrite !elem_of_app. right. left. repeat constructor.
Qed.
End Frames.

(** ** The whole page *)

Lemma extends_refl w : extends w w.
Proof. by split. Qed.

Lemma extends_trans w1 w2 w3 : extends w1 w2 -> extends w2 w3 -> extends w1 w3.
Proof.
  intros [Hh Hp] [Hh' Hp']. split; [by auto|]. by etrans.
Qed.

Lemma grows_ret {A} (a : A) : grows (mret a).
Proof. intros w. apply extends_refl. Qed.

Lemma grows_lift {A} (r : result A) : grows (lift r).
Proof. intros w. apply extends_refl. Qed.

Lemma grows_deref l : grows (deref l).
Proof. intros w. unfold deref. destruct (heap w !! l); apply extends_refl. Qed.

Lemma grows_show u : grows (show u).
Proof. intros w. split; [done|]. by apply prefix_app_r. Qed.

Lemma grows_alloc df : grows (alloc df).
Proof.
  intros w. split; [|done]. intros l df' Hl. simpl.
  rewrite lookup_insert_ne; [done|]. by eapply fresh_loc_other.
Qed.

Lemma grows_bind {A B} (m : M A) (k : A -> M B) :
  grows m -> (forall a, grows (k a)) -> grows (m ≫= k).
Proof.
  intros Hm Hk w. rewrite bind_run. specialize (Hm w).
  destruct (m w) as [[a|e] w']; [|done].
  eapply extends_trans; [exact Hm|apply Hk].
Qed.

Lemma grows_try_except {A} (m : M A) (handler : exn -> M A) :
  grows m -> (forall e, grows (handler e)) -> grows (try_except m handler).
Proof.
  intros Hm Hh w. unfold try_except. specialize (Hm w).
  destruct (m w) as [[a|e] w']; [done|].
  eapply extends_trans; [exact Hm|apply Hh].
Qed.

Lemma appends_grows {A} P (m : M A) : appends P m -> grows m.
Proof.
  intros Hm w. destruct (Hm w) as (more & -> & _).
  split; [done|]. by apply prefix_app_r.
Qed.

Ltac grows_steps_with known :=
  repeat first
    [ known
    | apply grows_ret
    | apply grows_lift
    | apply grows_deref
    | apply grows_show
    | apply grows_alloc
    | apply grows_bind; [|intros ?] ].

Ltac grows_steps :=
  repeat first
    [ apply grows_ret
    | apply grows_lift
    | apply grows_deref
    | apply grows_show
    | apply grows_alloc
    | apply grows_bind; [|intros ?] ].

Section Page.
Context `{L : PyLib}.

(** The copy is written to after it has been made, but it is new. *)
Lemma clean_percentage_column_grows l : grows (clean_percentage_column l).
Proof.
  intros w. destruct (heap w !! l) as [df|] eqn:Hl.
  - rewrite (clean_percentage_column_run l w df Hl). cbv zeta.
    assert (Hnew : forall df', extends w (mkWorld (<[fresh (dom (heap w)):=df']> (heap w)) (page w))).
    { intros df'. split; [|done]. intros l0 df0 Hl0. simpl.
      rewrite lookup_insert_ne; [done|]. by eapply fresh_loc_other. }
    destruct (column_index pct (columns df)); [|apply Hnew].
    destruct (clean_series _); apply Hnew.
  - unfold clean_percentage_column, DataFrame_copy. rewrite !bind_run.
    unfold deref. rewrite Hl. apply extends_refl.
Qed.

Lemma load_data_grows i : grows (load_data i).
Proof.
  unfold load_data, load_demo_data, load_data_from_file, load_data_from_url.
  destruct (String.eqb (data_mode i) "Demo Data").
  - grows_steps_with ltac:(apply clean_percentage_column_grows).
  - apply grows_bind; [apply grows_show|intros _].
    apply grows_bind; [apply grows_show|intros _].
    apply grows_bind.
    { destruct (uploaded_file i); [|apply grows_ret].
      apply grows_try_except; [|intros e; grows_steps].
      grows_steps_with ltac:(apply clean_percentage_column_grows). }
    intros from_file. apply grows_bind; [apply grows_show|intros _].
    apply grows_bind.
    { destruct (_ && _); [|apply grows_ret].
      apply grows_try_except; [|intros e; grows_steps].
      grows_steps_with ltac:(apply clean_percentage_column_grows). }
    intros [l|]; grows_steps.
Qed.

Lemma display_grows i loaded : grows (display i loaded).
Proof.
  intros w. destruct (display_appends i loaded w) as (more & -> & _).
  split; [done|]. by apply prefix_app_r.
Qed.

(** X6. Whatever the inputs and the library do, and whether the run ends
    normally or in an exception, [main] never changes or removes a table
    that was in the store and never takes anything off the page: it only
    adds tables of its own and appends to the page. In particular no
    loader, cleaner or validator writes to a table it was handed. *)
Theorem main_only_adds i w : extends w (main i w).2.
Proof.
  revert w. change (grows (main i)). unfold main.
  apply grows_bind; [apply grows_show|intros _].
  apply grows_bind; [apply grows_show|intros _].
  apply grows_bind; [apply grows_show|intros _].
  apply grows_bind; [apply load_data_grows|intros loaded].
  apply display_grows.
Qed.
End Page.

(** ** When the page breaks *)

Lemma dropna_text (s : Series) :
  Forall (fun v => is_str v = true) s -> dropna s = s.
Proof.
  unfold dropna. induction 1 as [|v s Hv _ IH]; [done|].
  rewrite filter_cons, IH. by destruct v.
Qed.

Lemma forallb_is_str (s : Series) :
  Forall (fun v => is_str v = true) s -> forallb is_str s = true.
Proof. induction 1 as [|v s Hv _ IH]; [done|]. simpl. by rewrite Hv, IH. Qed.

(** The sum of a column of text is text. *)
Lemma series_sum_text (s : Series) :
  s <> [] -> Forall (fun v => is_str v = true) s ->
  exists t, series_sum s = Ok (VStr t).
Proof.
  intros Hs Hall. unfold series_sum. rewrite (dropna_text s Hall).
  destruct s as [|v s]; [done|].
  assert (Hv : is_str v = true) by (by inversion Hall).
  destruct v; try discriminate Hv.
  change (forallb is_int (VStr s0 :: s)) with false.
  change (forallb is_number (VStr s0 :: s)) with false.
  cbv iota. rewrite (forallb_is_str _ Hall). by eexists.
Qed.

Section Crashes.
Context `{L : PyLib}.

Lemma loader_outcome_result prefix w out :
  loader_outcome prefix w out ->
  exists r, out.1 = Ok r /\ forall l, r = Some l -> is_Some (heap out.2 !! l).
Proof.
  intros [_ [(l' & Hr & _ & Hl & _)|(msg & Hr & _)]]; eexists; (split; [exact Hr|]).
  - by intros l [= <-].
  - by intros l [=].
Qed.

Lemma load_data_from_file_outcome text w :
  loader_outcome "Error loading data from file: " w (load_data_from_file text w).
Proof. rewrite load_data_from_file_try. apply try_load_text_outcome. Qed.

Lemma load_data_from_url_outcome url w :
  loader_outcome "Error loading data from URL: " w (load_data_from_url url w).
Proof.
  rewrite load_data_from_url_try.
  destruct (requests_get url) as [fetched|e]; [apply try_load_text_outcome|].
  split; [done|]. right. by exists (exn_message e).
Qed.

Lemma preview_returns loaded w :
  (forall l, loaded = Some l -> is_Some (heap w !! l)) ->
  exists w', preview loaded w = (Ok loaded, w') /\ heap w' = heap w.
Proof.
  intros Hl. destruct loaded as [l|]; simpl; [|by eexists].
  destruct (Hl l eq_refl) as [df Hdf].
  rewrite bind_run. unfold deref. rewrite Hdf, bind_show. by eexists.
Qed.

(** In user mode loading always returns, and what it returns is stored. *)
Lemma load_data_user_returns i w :
  data_mode i <> "Demo Data" ->
  exists loaded w',
    load_data i w = (Ok loaded, w') /\
    forall l, loaded = Some l -> is_Some (heap w' !! l).
Proof.
  intros Hmode. rewrite (load_data_user i w Hmode). fold preview.
  rewrite !bind_show, bind_run.
  destruct (uploaded_file i) as [text|].
  - rewrite andb_false_r.
    match goal with |- context [load_data_from_file text ?w1] =>
      destruct (loader_outcome_result _ _ _ (load_data_from_file_outcome text w1))
        as (r & Hr & Hl);
      destruct (load_data_from_file text w1) as [r0 w2] end.
    simpl in Hr, Hl. subst r0. rewrite bind_show, bind_run.
    unfold mret at 1, M_ret at 1.
    match goal with |- context [preview r ?w3] =>
      destruct (preview_returns r w3 Hl) as (w' & Hrun & Hheap) end.
    rewrite Hrun. exists r, w'. split; [done|]. intros l Hl'. rewrite Hheap. by apply Hl.
  - unfold mret at 1, M_ret at 1. rewrite bind_show, bind_run, andb_true_r.
    destruct (negb (String.eqb (csv_url i) "")).
    + match goal with |- context [load_data_from_url (csv_url i) ?w1] =>
        destruct (loader_outcome_result _ _ _ (load_data_from_url_outcome (csv_url i) w1))
          as (r & Hr & Hl);
        destruct (load_data_from_url (csv_url i) w1) as [r0 w2] end.
      simpl in Hr, Hl. subst r0.
      destruct (preview_returns r w2 Hl) as (w' & Hrun & Hheap).
      rewrite Hrun. exists r, w'. split; [done|]. intros l Hl'. rewrite Hheap. by apply Hl.
    + unfold mret at 1, M_ret at 1. simpl. by eexists _, _.
Qed.

(** X7. In user mode [main] lets an exception through only after a table
    has been loaded and has passed validation, and the exception is then
    that of drawing or summarising this table. A failed fetch, an
    unreadable file, a percentage that is no number, a missing column or
    no input at all never end the run with an exception. *)
Theorem user_mode_raises_only_past_validation i w e w' :
  data_mode i <> "Demo Data" ->
  main i w = (Raise e, w') ->
  exists l w1 df,
    load_data i (shown_on w page_head) = (Ok (Some l), w1) /\
    heap w1 !! l = Some df /\ all_required_present df /\
    display i (Some l) w1 = (Raise e, w').
Proof.
  intros Hmode. unfold main. rewrite !bind_show, bind_run.
  match goal with |- context [load_data i ?w0] =>
    replace w0 with (shown_on w page_head)
      by (unfold shown_on, page_head; simpl; by rewrite <- !app_assoc) end.
  destruct (load_data_user_returns i (shown_on w page_head) Hmode)
    as (loaded & w1 & Hload & Hl).
  rewrite Hload. intros Hdisp. destruct loaded as [l|].
  - destruct (Hl l eq_refl) as [df Hdf]. exists l, w1, df.
    repeat split; try done. apply missing_columns_nil.
    simpl in Hdisp. rewrite bind_run, (validate_data_run l w1 df Hdf) in Hdisp.
    destruct (missing_columns df); [done|]. by rewrite !bind_show in Hdisp.
  - simpl in Hdisp. destruct (String.eqb (data_mode i) "User Data"); [|done].
    by rewrite !bind_show in Hdisp.
Qed.

(** X8. Validation looks at the names of the columns only: a table that
    has every required column but whose revenue column is text passes it,
    and the summary then raises when it formats the revenue total, after
    the client count and before any other metric; so [display] ends in an
    exception for every such table. *)
Theorem text_revenue_breaks_summary i l df w revenue :
  heap w !! l = Some df -> all_required_present df ->
  getitem df "FY25_Revenue" = Ok revenue ->
  revenue <> [] -> Forall (fun v => is_str v = true) revenue ->
  validate_data l w = (Ok true, w) /\
  (exists e, show_summary df w = (Raise e, shown_on w (summary_start df))) /\
  exists e w', display i (Some l) w = (Raise e, w').
Proof.
  intros Hl Hall%missing_columns_nil Hrev Hne Htext.
  destruct (series_sum_text revenue Hne Htext) as [t Hsum].
  assert (Hsummary : forall w0,
            exists e, show_summary df w0 = (Raise e, shown_on w0 (summary_start df))).
  { intros w0. unfold show_summary. rewrite !bind_show, Hrev, bind_lift_Ok.
    cbv beta. rewrite Hsum, bind_lift_Ok. cbv beta. rewrite bind_run.
    eexists. unfold lift, shown_on, summary_start. simpl.
    by rewrite <- !app_assoc. }
  split; [by rewrite (validate_data_run l w df Hl), Hall|].
  split; [apply Hsummary|].
  simpl. rewrite bind_run, (validate_data_run l w df Hl), Hall, bind_run.
  unfold deref at 1. rewrite Hl, bind_run.
  destruct (show_chart i df w) as [[[]|e] w2]; [|by eauto].
  destruct (Hsummary w2) as [e He]. rewrite He. eauto.
Qed.
End Crashes.

(** ** The cleaned column *)

Section Cleaning.
Context `{L : PyLib}.

(** X9. After a successful [clean_percentage_column] the returned table
    holds, in the percentage column, for every cell the float that
    [float(str(cell).replace('%', ''))] gives, so that every cell of that
    column is a float; a table without the column comes back as an equal
    copy. *)
Theorem cleaned_column_cells l w df l' w' :
  heap w !! l = Some df ->
  clean_percentage_column l w = (Ok l', w') ->
  exists df', heap w' !! l' = Some df' /\
    (pct ∉ columns df -> df' = df) /\
    (forall s, getitem df pct = Ok s ->
       exists s', getitem df' pct = Ok s' /\
         Forall2 (fun v v' => exists f, normalize_cell v = Some f /\ v' = VFloat f) s s' /\
         Forall (fun v' => is_number v' = true) s').
Proof.
  intros Hl. rewrite (clean_percentage_column_run l w df Hl). cbv zeta.
  unfold getitem. destruct (column_index pct (columns df)) as [i|] eqn:Hi.
  - destruct (clean_series (column_at i df)) as [s'|e] eqn:Hclean; [|done].
    intros [= <- <-]. exists (set_column_at i s' df). simpl.
    rewrite lookup_insert_eq. split; [done|]. split.
    + intros Hno. apply column_index_None in Hno. congruence.
    + intros s [= <-]. exists s'. rewrite Hi.
      assert (Hlen : length s' = len df).
      { rewrite (clean_series_length _ _ Hclean). apply column_at_length. }
      rewrite (column_at_set_eq i s' df Hlen). split; [done|].
      apply clean_series_Ok in Hclean. split; [done|].
      clear Hlen. induction Hclean as [|v v' s s' (f & _ & ->) _ IH]; by constructor.
  - intros [= <- <-]. exists df. simpl. rewrite lookup_insert_eq. by repeat split.
Qed.
End Cleaning.

(** ** Markers and hover data *)

Lemma column_indices_Ok names df idx :
  column_indices names df = Ok idx ->
  forall row, (fun i => cell i row) <$> idx = (fun c => cell_of df c row) <$> names.
Proof.
  revert idx. induction names as [|c names IH]; intros idx; simpl.
  - by intros [= <-].
  - destruct (column_index c (columns df)) as [i|] eqn:Hc; [|done].
    destruct (column_indices names df) as [idx'|]; [|done]. simpl.
    intros [= <-] row. simpl. unfold cell_of at 1. rewrite Hc. f_equal. by apply IH.
Qed.

Lemma values_of_Ok names df cells :
  values_of names df = Ok cells ->
  cells = (fun row => (fun c => cell_of df c row) <$> names) <$> rows df.
Proof.
  unfold values_of. destruct (column_indices names df) as [idx|] eqn:H; [|done].
  simpl. intros [= <-]. apply list_fmap_ext. intros ? row _.
  by apply column_indices_Ok.
Qed.

Lemma filter_fmap {A B} (f : A -> B) (P : B -> Prop) `{!forall y, Decision (P y)}
    (l : list A) :
  filter P (f <$> l) = f <$> filter (fun x => P (f x)) l.
Proof.
  induction l as [|x l IH]; [done|]. rewrite fmap_cons, !filter_cons, IH.
  by destruct (decide (P (f x))).
Qed.

Lemma create_scatter_plot_data df fig :
  create_scatter_plot df = Ok fig ->
  fig_points fig = marker_of df <$> rows df /\
  fig_customdata fig = hover_of df <$> rows df.
Proof.
  unfold create_scatter_plot, px_scatter. intros H.
  destruct (values_of _ df) as [cells|] eqn:Hcells in H; [|done]. simpl in H.
  destruct (values_of required_columns df) as [custom|] eqn:Hcustom; [|done].
  simpl in H. injection H as <-. simpl.
  apply values_of_Ok in Hcells as ->. apply values_of_Ok in Hcustom as ->.
  split; [|done]. rewrite <- list_fmap_compose. done.
Qed.


(** X11. The markers of the trace of a risk code (one that is not missing)
    are drawn from the rows with that code, but the hover text of marker
    number [j] of every trace reads row number [j] of the whole table: the
    client named in a hover text is the one of the marker only where the
    two rows are the same. *)
Theorem hover_reads_rows_by_position df fig code j p :
  create_scatter_plot df = Ok fig ->
  isna code = false ->
  trace fig code !! j = Some p ->
  exists drawn read,
    filter (fun row => cell_of df "Relationship_Risk_(R/A/G)" row = code) (rows df) !! j
      = Some drawn /\
    rows df !! j = Some read /\
    p = marker_of df drawn /\
    forall k c, required_columns !! k = Some c -> hover_data fig j k = cell_of df c read.
Proof.
  intros H _ Hp. destruct (create_scatter_plot_data df fig H) as [Hpts Hcustom].
  unfold trace in Hp. rewrite Hpts, filter_fmap in Hp.
  apply list_lookup_fmap_Some_1 in Hp as (drawn & -> & Hdrawn).
  assert (Hj : (j < length (rows df))%nat).
  { apply lookup_lt_Some in Hdrawn.
    eapply Nat.lt_le_trans; [exact Hdrawn|apply length_filter]. }
  apply lookup_lt_is_Some_2 in Hj as [read Hread].
  exists drawn, read. repeat split; try done.
  intros k c Hk. unfold hover_data. rewrite Hcustom, list_lookup_fmap, Hread.
  simpl. unfold hover_of, cell. by rewrite list_lookup_fmap, Hk.
Qed.

(** ** The risk distribution *)

#[global] Instance count_ge_total : Total count_ge.
Proof. intros a b. unfold count_ge. lia. Qed.

#[global] Instance count_ge_trans : Transitive count_ge.
Proof. intros a b c. unfold count_ge. lia. Qed.

Lemma sum_bump v acc :
  sum_list_with snd (bump v acc) = S (sum_list_with snd acc).
Proof.
  induction acc as [|[w n] acc IH]; [done|]. simpl.
  destruct (decide (w = v)); simpl; [done|]. rewrite IH. lia.
Qed.

Lemma sum_tally s acc :
  sum_list_with snd (foldl (fun acc v => bump v acc) acc s) =
  (sum_list_with snd acc + length s)%nat.
Proof.
  revert acc. induction s as [|v s IH]; intros acc; simpl; [lia|].
  rewrite IH, sum_bump. lia.
Qed.

Lemma dropna_none_missing (s : Series) :
  Forall (fun v => isna v = false) s -> dropna s = s.
Proof.
  unfold dropna. induction 1 as [|v s Hv _ IH]; [done|].
  rewrite filter_cons_True by done. by rewrite IH.
Qed.

(** X12. The lines of the risk distribution come with the largest count
    first; their counts are positive and add up to the number of rows whose
    risk cell is not missing, so to the number of clients when no cell is
    missing; and the count on the line of code R is the number shown as
    High Risk Clients, with no such line exactly when that number is 0. *)
Theorem risk_distribution_totals df risk :
  getitem df "Relationship_Risk_(R/A/G)" = Ok risk ->
  StronglySorted count_ge (value_counts risk) /\
  sum_list_with snd (value_counts risk) = length (dropna risk) /\
  (Forall (fun v => isna v = false) risk ->
   sum_list_with snd (value_counts risk) = len df) /\
  Forall (fun e => (0 < e.2 <= len df)%nat) (value_counts risk) /\
  (forall n, (VStr "R", n) ∈ value_counts risk -> n = count_equal "R" risk) /\
  (count_equal "R" risk = O <-> VStr "R" ∉ (value_counts risk).*1).
Proof.
  intros Hlen%getitem_length.
  destruct (value_counts_spec risk) as [_ Hspec].
  assert (Hsum : sum_list_with snd (value_counts risk) = length (dropna risk)).
  { unfold value_counts. rewrite merge_sort_Permutation. unfold tally.
    by rewrite sum_tally. }
  split; [apply StronglySorted_merge_sort; apply _|].
  split; [done|]. split; [|split; [|split]].
  - intros Hall. by rewrite Hsum, (dropna_none_missing risk Hall).
  - apply Forall_forall. intros [v n] Hin. simpl.
    apply Hspec in Hin as (_ & Hv & ->). split.
    + by apply count_in_positive.
    + rewrite <- Hlen. apply length_filter.
  - intros n Hin. by apply Hspec in Hin as (_ & _ & ->).
  - change (count_equal "R" risk) with (count_in (VStr "R") risk).
    pose proof (count_in_positive (VStr "R") risk) as Hpos. split.
    + intros Hzero Hin. apply list_elem_of_fmap in Hin as ([v n] & Hv & Hin).
      simpl in Hv. subst v. apply Hspec in Hin as (_ & Hin & _).
      apply Hpos in Hin. lia.
    + intros Hnot. destruct (count_in (VStr "R") risk) as [|n] eqn:Hcount; [done|].
      exfalso. apply Hnot. apply list_elem_of_fmap.
      exists (VStr "R", S n). split; [done|]. apply Hspec.
      split; [done|]. split; [|done]. apply Hpos. lia.
Qed.

(** ** Validation *)

Lemma filter_ext_elem_of {A} (P Q : A -> Prop)
    `{!forall x, Decision (P x), !forall x, Decision (Q x)} (l : list A) :
  (forall x, x ∈ l -> P x <-> Q x) -> filter P l = filter Q l.
Proof.
  induction l as [|x l IH]; intros Hl; [done|]. rewrite !filter_cons.
  rewrite IH by (intros y Hy; apply Hl; by right).
  pose proof (Hl x (list_elem_of_here x l)) as Hx.
  destruct (decide (P x)), (decide (Q x)); tauto.
Qed.

(** X13. Validation depends only on which of the six required names occur
    among the columns: two tables that have the same required columns get
    the same verdict and the same messages, whatever the order of their
    columns, whatever other columns they have and whatever their rows
    hold. *)
Theorem validation_ignores_order_and_extras l l' w df df' :
  heap w !! l = Some df -> heap w !! l' = Some df' ->
  (forall c, c ∈ required_columns -> c ∈ columns df <-> c ∈ columns df') ->
  validate_data l w = validate_data l' w.
Proof.
  intros Hl Hl' Hsame.
  rewrite (validate_data_run l w df Hl), (validate_data_run l' w df' Hl').
  unfold validation_report.
  replace (missing_columns df') with (missing_columns df); [done|].
  unfold missing_columns. apply filter_ext_elem_of.
  intros c Hc. specialize (Hsame c Hc). tauto.
Qed.

(** ** When the summary is shown *)




Section Summary.
Context `{L : PyLib}.

End Summary.

(** ** The properties at concrete inputs *)

(** X3 with a file and a URL given at once: the URL changes nothing. *)
Lemma load_data_source_precedence_witness :
  load_data (L:=demo_lib) file_and_url empty_world =
  load_data (L:=demo_lib) (upload text_in_percentage) empty_world.
Proof.
  destruct (load_data_source_precedence (L:=demo_lib)
              file_and_url (upload text_in_percentage) empty_world) as (_ & Hfile & _).
  destruct (Hfile ltac:(discriminate) ltac:(discriminate) text_in_percentage
              eq_refl eq_refl) as [Hsame _].
  exact Hsame.
Defined.

(** X4 at the empty table with the six required columns. *)
Lemma chart_only_for_validated_table_witness :
  exists fig,
    st_plotly_chart fig
      ∈ page (display (L:=demo_lib) demo_inputs (Some O) (world_with empty_table)).2.
Proof.
  assert (Hfig : exists fig, create_scatter_plot empty_table = Ok fig)
    by (vm_compute; eauto).
  destruct Hfig as [fig Hfig]. exists fig.
  destruct (chart_only_for_validated_table (L:=demo_lib)
              demo_inputs (Some O) (world_with empty_table) fig) as [_ Hiff].
  - apply not_elem_of_nil.
  - apply Hiff. exists O, empty_table. split; [reflexivity|].
    split; [vm_compute; reflexivity|]. split; [|exact Hfig].
    apply missing_columns_nil. vm_compute. reflexivity.
Defined.

(** X5 at the empty table, with the button clicked. *)
Lemma download_button_only_on_click_witness :
  exists fig,
    create_scatter_plot empty_table = Ok fig /\
    st_download_button "💾 Save PNG File" (mkImage fig "png" 1200 800 2)
        "client_categorisation_matrix.png" "image/png"
      ∈ page (display (L:=demo_lib) demo_download (@Some loc O) (world_with empty_table)).2.
Proof.
  assert (Hfig : exists fig, create_scatter_plot empty_table = Ok fig)
    by (vm_compute; eauto).
  destruct Hfig as [fig Hfig].
  assert (Hall : all_required_present empty_table).
  { apply missing_columns_nil. vm_compute. reflexivity. }
  assert (Hl : heap (world_with empty_table) !! O = Some empty_table)
    by (vm_compute; reflexivity).
  destruct (display_valid_run (L:=demo_lib) demo_download O empty_table fig
              (world_with empty_table) Hl Hall Hfig) as [more Hpage].
  assert (Hin : st_download_button "💾 Save PNG File" (mkImage fig "png" 1200 800 2)
                    "client_categorisation_matrix.png" "image/png"
                  ∈ page (display (L:=demo_lib) demo_download (@Some loc O)
                            (world_with empty_table)).2).
  { rewrite Hpage. apply elem_of_app. right. apply elem_of_app. right.
    apply elem_of_app. left. simpl. apply list_elem_of_here. }
  destruct (download_button_only_on_click (L:=demo_lib) demo_download (@Some loc O)
              (world_with empty_table) _ _ _ _ Hin) as (_ & l & df & fig' & _).
  - apply not_elem_of_nil.
  - exists fig. split; [exact Hfig|exact Hin].
Defined.

(** X7 at an uploaded file whose revenue column is text. *)
Lemma user_mode_raises_only_past_validation_witness :
  exists l w1 df,
    load_data (L:=demo_lib) (upload text_in_revenue) (shown_on empty_world page_head)
      = (Ok (Some l), w1) /\
    heap w1 !! l = Some df /\ all_required_present df.
Proof.
  destruct (main (L:=demo_lib) (upload text_in_revenue) empty_world)
    as [[[]|e] w'] eqn:Hrun; [vm_compute in Hrun; discriminate Hrun|].
  destruct (user_mode_raises_only_past_validation (L:=demo_lib)
              (upload text_in_revenue) empty_world e w')
    as (l & w1 & df & Hload & Hl & Hall & _).
  - discriminate.
  - exact Hrun.
  - exists l, w1, df. split; [exact Hload|]. split; [exact Hl|exact Hall].
Defined.

(** X8 at a table with two clients whose revenue is text. *)
Lemma text_revenue_breaks_summary_witness :
  exists e w',
    display (L:=demo_lib) demo_inputs (Some O) (world_with table_with_text_revenue)
      = (Raise e, w').
Proof.
  destruct (text_revenue_breaks_summary (L:=demo_lib) demo_inputs O
              table_with_text_revenue (world_with table_with_text_revenue)
              [VStr "200k"; VStr "5k"]) as (_ & _ & Hraise).
  - vm_compute. reflexivity.
  - apply missing_columns_nil. vm_compute. reflexivity.
  - vm_compute. reflexivity.
  - discriminate.
  - repeat constructor.
  - exact Hraise.
Defined.

(** X9 at a table whose percentages are 28% and 1%. *)
Lemma cleaned_column_cells_witness :
  exists l' w' df',
    clean_percentage_column (L:=demo_lib) O (world_with table_with_percent_signs)
      = (Ok l', w') /\
    heap w' !! l' = Some df' /\
    getitem df' pct = Ok [VFloat (FNum 28); VFloat (FNum 1)].
Proof.
  destruct (clean_percentage_column (L:=demo_lib) O (world_with table_with_percent_signs))
    as [[l'|e] w'] eqn:Hrun; [|vm_compute in Hrun; discriminate Hrun].
  destruct (cleaned_column_cells (L:=demo_lib) O (world_with table_with_percent_signs)
              table_with_percent_signs l' w') as (df' & Hl' & _ & Hcells).
  - vm_compute. reflexivity.
  - exact Hrun.
  - destruct (Hcells [VStr "28%"; VStr "1%"]) as (s' & Hs' & Hrel & _).
    + vm_compute. reflexivity.
    + exists l', w', df'. split; [reflexivity|]. split; [exact Hl'|].
      rewrite Hs'. f_equal.
      apply Forall2_cons_inv_l in Hrel as (v1 & s1 & (f1 & Hf1 & ->) & Hrel & ->).
      apply Forall2_cons_inv_l in Hrel as (v2 & s2 & (f2 & Hf2 & ->) & Hrel & ->).
      apply Forall2_nil_inv_l in Hrel as ->.
      vm_compute in Hf1, Hf2. by injection Hf1 as <-; injection Hf2 as <-.
Defined.


(** X11 at the demo table: the first amber marker is drawn at (2, 1), where
    Blackpool Tower is, and its hover text names Arctic Tours, the first
    client of the table, with risk code R. *)
Lemma hover_reads_rows_by_position_witness :
  exists fig p,
    create_scatter_plot demo_table = Ok fig /\
    trace fig (VStr "A") !! O = Some p /\
    (pt_x p, pt_y p) = (VInt 2, VInt 1) /\
    clients_with_risk "A" demo_table !! O = Some (VStr "Blackpool Tower") /\
    hover_data fig 0%nat 0%nat = VStr "Arctic Tours" /\
    hover_data fig 0%nat 3%nat = VStr "R".
Proof.
  destruct (create_scatter_plot demo_table) as [fig|e] eqn:Hfig;
    [|vm_compute in Hfig; discriminate Hfig].
  destruct (create_scatter_plot_data demo_table fig Hfig) as [Hpts _].
  assert (Hp : exists p, trace fig (VStr "A") !! O = Some p /\
                         (pt_x p, pt_y p) = (VInt 2, VInt 1)).
  { unfold trace. rewrite Hpts. vm_compute. eauto. }
  destruct Hp as (p & Hp & Hxy).
  destruct (hover_reads_rows_by_position demo_table fig (VStr "A") O p Hfig eq_refl Hp)
    as (drawn & read & _ & Hread & _ & Hhover).
  vm_compute in Hread. injection Hread as <-.
  exists fig, p. split; [reflexivity|]. split; [exact Hp|]. split; [exact Hxy|].
  split; [vm_compute; reflexivity|].
  split.
  - rewrite (Hhover 0%nat "Client_Name" eq_refl). vm_compute. reflexivity.
  - rewrite (Hhover 3%nat "Relationship_Risk_(R/A/G)" eq_refl). vm_compute. reflexivity.
Defined.

(** X12 at the demo table. *)
Lemma risk_distribution_totals_witness :
  exists risk,
    getitem demo_table "Relationship_Risk_(R/A/G)" = Ok risk /\
    sum_list_with snd (value_counts risk) = len demo_table /\
    (VStr "R", count_equal "R" risk) ∈ value_counts risk.
Proof.
  destruct (getitem demo_table "Relationship_Risk_(R/A/G)") as [risk|e] eqn:Hrisk;
    [|vm_compute in Hrisk; discriminate Hrisk].
  destruct (risk_distribution_totals demo_table risk Hrisk)
    as (_ & _ & Hsum & _ & _ & _).
  exists risk. split; [reflexivity|]. split.
  - apply Hsum. vm_compute in Hrisk. injection Hrisk as <-. repeat constructor.
  - vm_compute in Hrisk. injection Hrisk as <-.
    apply list_elem_of_In. vm_compute. tauto.
Defined.

(** X13 at a table and the same table with its columns reordered and one
    column more. *)
Lemma validation_ignores_order_and_extras_witness :
  validate_data 0%nat world_with_both =
  validate_data 1%nat world_with_both.
Proof.
  apply (validation_ignores_order_and_extras 0%nat 1%nat world_with_both
           table_with_percent_signs table_reordered).
  - vm_compute. reflexivity.
  - vm_compute. reflexivity.
  - intros c Hc. unfold required_columns in Hc.
    rewrite !elem_of_cons, elem_of_nil in Hc.
    destruct Hc as [->|[->|[->|[->|[->|[->|[]]]]]]]; split; intros _;
      apply list_elem_of_In; vm_compute; tauto.
Defined.

